(** * Country cache: refresh pipeline and query layer

    A shallow embedding of the FastAPI service under [app/]: the ORM rows of
    [models.py], the payload of [schemas.py], the store operations of
    [crud.py], the refresh cycle of [services.py] and the endpoints and
    exception handlers of [main.py].

    Conventions of the embedding.
    - A Python [float] is the rational it stands for, or an infinity; every
      operation rounds as binary64 does ([py.to_double]). A [Float] column
      keeps the double it is given. A [datetime] is an integer count of
      clock ticks ([Time]).
    - A table is the list of its rows in the order of insertion. [ORDER BY]
      sorts; rows of equal rank come out in the order the engine visits them,
      which the deployment decides.
    - [==] on a text column is equality of strings, and every string fits
      the length of its column.
    - An [AsyncSession] has the committed state and the state its open
      transaction sees; closing the session discards what was not committed.
    - What the code reads from outside (the two HTTP answers, both clocks,
      the random generator, whether the image can be saved) is an explicit
      input, see [services.World].
    - The engine and the driver behind [DATABASE_URL] are not part of the
      sources, nor is the library code of [str.lower] and of pydantic's
      [HttpUrl]. What the code depends on of them is a field of
      [database.Deployment], and a session carries its deployment. *)

From Stdlib Require Import ZArith QArith Qabs List String Ascii Bool Lia Sorted.
From Stdlib Require Import Permutation DecimalString.
From stdpp Require Import base strings gmap.

Open Scope string_scope.

(** ** Python values *)

Definition Time := Z.

Module py.

(** A decoded JSON document, as [response.json()] returns it. *)
#[local] Unset Elimination Schemes.
Inductive json : Type :=
| JNull
| JBool (b : bool)
| JNumber (q : Q)
| JString (s : string)
| JArray (items : list json)
| JObject (members : list (string * json)).
#[local] Set Elimination Schemes.

(** Truth value of an object in a condition. *)
Definition truthy (v : json) : bool :=
  match v with
  | JNull => false
  | JBool b => b
  | JNumber q => negb (Qeq_bool q 0)
  | JString s => negb (String.eqb s "")
  | JArray items => match items with [] => false | _ => true end
  | JObject members => match members with [] => false | _ => true end
  end.

(** Truth value of an [Optional[str]]. *)
Definition truthy_str (o : option string) : bool :=
  match o with
  | None => false
  | Some s => negb (String.eqb s "")
  end.

(** [d.get(key)] on the members of a dict: [None] when the key is absent. *)
Fixpoint dict_get (members : list (string * json)) (key : string) : json :=
  match members with
  | [] => JNull
  | (k, v) :: rest => if String.eqb k key then v else dict_get rest key
  end.

Inductive exn : Type :=
| ServiceUnavailableException (api_name details : string)
| HTTPStatusError (status_code : Z)
| TypeError
| ValidationError
| OverflowError
| ZeroDivisionError
| DBAPIError
| OSError.

Inductive result (A : Type) : Type :=
| Return (a : A)
| Raise (e : exn).
Arguments Return {A} a.
Arguments Raise {A} e.

(** [random.randint(a, b)]: a value of [a..b], chosen by the generator's
    next output [bits]. *)
Definition randint (a b : Z) (bits : Z) : Z := (a + bits mod (b - a + 1))%Z.

(** *** Numbers *)

(** A [float], by its value. The operations of the code make no NaN out of
    JSON numbers, and the sign of a zero is not kept. *)
Inductive float : Type :=
| Finite (q : Q)
| Infinity (negative : bool).

(** A number as [json] decodes it: an [int] of any size, or a [float]. *)
Inductive number : Type :=
| Int (z : Z)
| Float (f : float).

(** The integer nearest to [num / den], a tie going to the even one. *)
Definition round_half_even (num den : Z) : Z :=
  let m := (num / den)%Z in
  match (2 * (num mod den) ?= den)%Z with
  | Lt => m
  | Gt => (m + 1)%Z
  | Eq => if Z.even m then m else (m + 1)%Z
  end.

(** The exponent of the last place of the double next to [n / d]: with it
    the significand has 53 bits, or fewer when the double is subnormal. *)
Definition exponent (n d : Z) : Z :=
  let l := (Z.log2 n - Z.log2 d)%Z in
  let l := if (if (0 <=? l)%Z then (d * 2 ^ l <=? n)%Z else (d <=? n * 2 ^ (- l))%Z)
           then l else (l - 1)%Z in
  Z.max (l - 52) (-1074).

(** The value of binary64 nearest to [q], were the exponent not bounded
    above. *)
Definition double (q : Q) : Q :=
  let n := Z.abs (Qnum q) in
  let d := Z.pos (Qden q) in
  if (n =? 0)%Z then 0%Q
  else
    let e := exponent n d in
    let m := if (0 <=? e)%Z then round_half_even n (d * 2 ^ e)
             else round_half_even (n * 2 ^ (- e)) d in
    let m := (Z.sgn (Qnum q) * m)%Z in
    Qred (if (0 <=? e)%Z then inject_Z (m * 2 ^ e) else Qmake m (Z.to_pos (2 ^ (- e)))).

(** Rounding leaves the range of binary64 from half a unit in the last
    place above the largest double on. *)
Definition overflows (q : Q) : bool :=
  Qle_bool (inject_Z (2 ^ 1024 - 2 ^ 970)) (Qabs q).

(** Rounding to nearest, as the hardware does it: beyond the range, an
    infinity. *)
Definition to_double (q : Q) : float :=
  if overflows q then Infinity (Qnum q <? 0)%Z else Finite (double q).

(** [float(z)] of an [int] *)
Definition float_of_int (z : Z) : result float :=
  match to_double (inject_Z z) with
  | Infinity _ => Raise OverflowError
  | x => Return x
  end.

(** [a / b] for an [int] [a]. Two [int]s give the double nearest to the
    quotient; with a [float] the [int] is converted first, and the division
    is that of the hardware. *)
Definition truediv (a : Z) (b : number) : result float :=
  match b with
  | Int z =>
      if (z =? 0)%Z then Raise ZeroDivisionError
      else match to_double (inject_Z a / inject_Z z) with
           | Infinity _ => Raise OverflowError
           | x => Return x
           end
  | Float y =>
      match to_double (inject_Z a) with
      | Infinity _ => Raise OverflowError
      | Finite x =>
          match y with
          | Finite q =>
              if Qeq_bool q 0 then Raise ZeroDivisionError
              else Return (to_double (x / q))
          | Infinity _ => Return (Finite 0)
          end
      end
  end.

(** [x > 0] *)
Definition positive (x : number) : bool :=
  match x with
  | Int z => (0 <? z)%Z
  | Float (Finite q) => negb (Qle_bool q 0)
  | Float (Infinity negative) => negb negative
  end.

End py.

(** ** models.py *)

Module models.
Import py.

(** The values a [BigInteger] column holds. *)
Definition BigInteger (z : Z) : bool :=
  ((- 2 ^ 63 <=? z) && (z <? 2 ^ 63))%Z.

Module Country.
Record t : Type := mk {
  id : Z;
  name : string;
  capital : option string;
  region : option string;
  population : Z;
  currency_code : option string;
  exchange_rate : option float;
  estimated_gdp : option float;
  flag_url : option string;
  last_refreshed_at : Time
}.
End Country.

Module AppStatus.
Record t : Type := mk {
  id : Z;
  last_refreshed_at : option Time
}.
End AppStatus.

End models.

(** ** schemas.py *)

Module schemas.
Import py.

Module CountryCreate.
(** [flag_url] holds the text of the [Url] object. *)
Record t : Type := mk {
  name : string;
  capital : option string;
  region : option string;
  population : Z;
  currency_code : option string;
  exchange_rate : option float;
  estimated_gdp : option float;
  flag_url : option string
}.
End CountryCreate.

(** A number given for a [float] field is converted; pydantic refuses an
    [int] beyond the range of a [float]. *)
Definition to_float (x : number) : result float :=
  match x with
  | Int z =>
      match float_of_int z with
      | Return f => Return f
      | Raise _ => Raise ValidationError
      end
  | Float f => Return f
  end.

(** [CountryCreate(name=..., ...)]: the fields are validated and converted.
    [HttpUrl] is the validation of a URL: the text of the [Url] object made
    of a string, or nothing when the string is refused. *)
Definition validate (HttpUrl : string -> option string) (name : string)
    (capital region : option string) (population : Z) (currency_code : option string)
    (exchange_rate : option number) (estimated_gdp : option float)
    (flag_url : option string) : result CountryCreate.t :=
  match (match exchange_rate with
         | Some x => match to_float x with
                     | Return f => Return (Some f)
                     | Raise e => Raise e
                     end
         | None => Return None
         end),
        (match flag_url with
         | Some u => match HttpUrl u with
                     | Some url => Return (Some url)
                     | None => Raise ValidationError
                     end
         | None => Return None
         end) with
  | Return rate, Return url =>
      Return {| CountryCreate.name := name;
                CountryCreate.capital := capital;
                CountryCreate.region := region;
                CountryCreate.population := population;
                CountryCreate.currency_code := currency_code;
                CountryCreate.exchange_rate := rate;
                CountryCreate.estimated_gdp := estimated_gdp;
                CountryCreate.flag_url := url |}
  | _, _ => Raise ValidationError
  end.

End schemas.

(** ** database.py *)

Module database.
Import py models.

(** How the engine ranks NULL against values in [ORDER BY]: below every
    value (MySQL, SQLite) or above every value (PostgreSQL). *)
Inductive NullRank : Type := NullsLowest | NullsHighest.

(** What the place the service runs in decides.
    - [nulls]: the rank of NULL in [ORDER BY].
    - [lower]: the engine's [lower()], what [func.lower] is evaluated by.
    - [visit]: the order in which the engine comes across the rows it
      sorts for a listing with the given filters and sort, as the comparison
      that arranges the table in that order.
    - [binds_url]: whether the driver takes a pydantic [Url] object for the
      parameter of a statement.
    - [str_lower]: Python's [str.lower].
    - [HttpUrl]: pydantic's validation of a URL, see [schemas.validate]. *)
Record Deployment : Type := mkDeployment {
  nulls : NullRank;
  lower : string -> string;
  visit : option string -> option string -> option string ->
          Country.t -> Country.t -> bool;
  binds_url : bool;
  str_lower : string -> string;
  HttpUrl : string -> option string
}.

(** The two tables, and the counter behind the autoincrement key. *)
Record Store : Type := mkStore {
  countries : list Country.t;
  next_id : Z;
  app_status : option AppStatus.t
}.

(** [bind] is the engine the session maker was bound to. *)
Record AsyncSession : Type := mkSession {
  bind : Deployment;
  committed : Store;
  pending : Store
}.

Definition null_rank (db : AsyncSession) : NullRank := nulls (bind db).

Definition with_pending (db : AsyncSession) (s : Store) : AsyncSession :=
  {| bind := bind db; committed := committed db; pending := s |}.

(** [await db.commit()] *)
Definition commit (db : AsyncSession) : AsyncSession :=
  {| bind := bind db; committed := pending db; pending := pending db |}.

(** Leaving [async with AsyncSessionLocal() as session]. *)
Definition close (db : AsyncSession) : AsyncSession :=
  {| bind := bind db; committed := committed db; pending := committed db |}.

(** Sorting by insertion, [before x y] saying that [x] may precede [y]. *)
Fixpoint insert_row {A : Type} (before : A -> A -> bool) (x : A) (l : list A) : list A :=
  match l with
  | [] => [x]
  | y :: l' => if before x y then x :: l else y :: insert_row before x l'
  end.

Fixpoint order_by {A : Type} (before : A -> A -> bool) (l : list A) : list A :=
  match l with
  | [] => []
  | x :: l' => insert_row before x (order_by before l')
  end.

(** The rows in the order the engine comes across them. Whatever [visit]
    is, these are the same rows, each as often. *)
Definition visited (db : AsyncSession) (region currency sort : option string)
    (rows : list Country.t) : list Country.t :=
  order_by (visit (bind db) region currency sort) rows.

(** [x <= y] on two doubles *)
Definition float_le (x y : float) : bool :=
  match x, y with
  | Finite a, Finite b => Qle_bool a b
  | Infinity true, _ => true
  | _, Infinity false => true
  | Finite _, Infinity true => false
  | Infinity false, _ => false
  end.

Definition asc (r : NullRank) (a b : option float) : bool :=
  match a, b with
  | Some x, Some y => float_le x y
  | None, None => true
  | None, Some _ => match r with NullsLowest => true | NullsHighest => false end
  | Some _, None => match r with NullsLowest => false | NullsHighest => true end
  end.

Definition desc (r : NullRank) (a b : option float) : bool := asc r b a.

(** [column == value] in a WHERE clause: a NULL column matches nothing. *)
Definition col_eq (column : option string) (value : string) : bool :=
  match column with
  | Some s => String.eqb s value
  | None => false
  end.

End database.

(** ** crud.py *)

Module crud.
Import py models schemas database.

(** [func.lower(Country.name)] is evaluated by the engine, [name.lower()]
    by Python. *)
Definition get_country_by_name (db : AsyncSession) (name : string) : option Country.t :=
  List.find (fun c => String.eqb (lower (bind db) (Country.name c))
                                 (str_lower (bind db) name))
            (countries (pending db)).

Definition get_countries (db : AsyncSession) (region currency sort : option string)
    (skip limit : nat) : list Country.t :=
  let query := countries (pending db) in
  let query :=
    match region with
    | Some r => if truthy_str region
                then List.filter (fun c => col_eq (Country.region c) r) query
                else query
    | None => query
    end in
  let query :=
    match currency with
    | Some cur => if truthy_str currency
                  then List.filter (fun c => col_eq (Country.currency_code c) cur) query
                  else query
    | None => query
    end in
  let query :=
    match sort with
    | Some "gdp_desc" =>
        order_by (fun a b => desc (null_rank db) (Country.estimated_gdp a)
                                  (Country.estimated_gdp b))
                 (visited db region currency sort query)
    | _ => order_by (fun a b => String.leb (Country.name a) (Country.name b))
                    (visited db region currency sort query)
    end in
  firstn limit (skipn skip query).

Definition get_countries_count (db : AsyncSession) : nat :=
  length (countries (pending db)).

(** The row an UPDATE with [values] of the whole [country_dict] leaves: every payload
    column overwritten, the key kept, [onupdate=func.now()] applied. *)
Definition updated (row : Country.t) (country_data : CountryCreate.t) (now : Time)
    : Country.t :=
  {| Country.id := Country.id row;
     Country.name := CountryCreate.name country_data;
     Country.capital := CountryCreate.capital country_data;
     Country.region := CountryCreate.region country_data;
     Country.population := CountryCreate.population country_data;
     Country.currency_code := CountryCreate.currency_code country_data;
     Country.exchange_rate := CountryCreate.exchange_rate country_data;
     Country.estimated_gdp := CountryCreate.estimated_gdp country_data;
     Country.flag_url := CountryCreate.flag_url country_data;
     Country.last_refreshed_at := now |}.

(** Whether the engine and the driver take the values of [country_dict] in
    an UPDATE or an INSERT: the population has to fit its column, and
    [model_dump()] leaves in [flag_url] the [Url] object itself, which the
    driver has to bind. *)
Definition bound (db : AsyncSession) (country_dict : CountryCreate.t) : bool :=
  BigInteger (CountryCreate.population country_dict)
  && match CountryCreate.flag_url country_dict with
     | Some _ => binds_url (bind db)
     | None => true
     end.

(** [now] is what [func.now()] evaluates to when the statement runs. The
    row returned is the row as stored after the write. A statement that is
    refused raises and writes nothing. *)
Definition upsert_country (db : AsyncSession) (country_data : CountryCreate.t)
    (now : Time) : result (Country.t * AsyncSession) :=
  let s := pending db in
  match get_country_by_name db (CountryCreate.name country_data) with
  | Some db_country =>
      if bound db country_data then
        let row := updated db_country country_data now in
        Return
          (row,
           with_pending db
             {| countries :=
                  map (fun c => if Z.eqb (Country.id c) (Country.id db_country)
                                then updated c country_data now else c) (countries s);
                next_id := next_id s;
                app_status := app_status s |})
      else Raise DBAPIError
  | None =>
      if bound db country_data then
        let row :=
          {| Country.id := next_id s;
             Country.name := CountryCreate.name country_data;
             Country.capital := CountryCreate.capital country_data;
             Country.region := CountryCreate.region country_data;
             Country.population := CountryCreate.population country_data;
             Country.currency_code := CountryCreate.currency_code country_data;
             Country.exchange_rate := CountryCreate.exchange_rate country_data;
             Country.estimated_gdp := CountryCreate.estimated_gdp country_data;
             Country.flag_url := CountryCreate.flag_url country_data;
             Country.last_refreshed_at := now |} in
        Return
          (row,
           with_pending db
             {| countries := countries s ++ [row];
                next_id := (next_id s + 1)%Z;
                app_status := app_status s |})
      else Raise DBAPIError
  end.

Definition delete_country_by_name (db : AsyncSession) (name : string)
    : option Country.t * AsyncSession :=
  match get_country_by_name db name with
  | Some db_country =>
      let s := pending db in
      (Some db_country,
       commit (with_pending db
         {| countries :=
              List.filter (fun c => negb (Z.eqb (Country.id c) (Country.id db_country)))
                          (countries s);
            next_id := next_id s;
            app_status := app_status s |}))
  | None => (None, db)
  end.

Definition get_top_gdp_countries (db : AsyncSession) (limit : nat) : list Country.t :=
  firstn limit
    (order_by (fun a b => desc (null_rank db) (Country.estimated_gdp a)
                               (Country.estimated_gdp b))
              (visited db None None (Some "gdp_desc") (countries (pending db)))).

Definition get_app_status (db : AsyncSession) : option AppStatus.t :=
  app_status (pending db).

Definition update_app_status (db : AsyncSession) (refresh_time : Time) : AsyncSession :=
  let s := pending db in
  with_pending db
    {| countries := countries s;
       next_id := next_id s;
       app_status :=
         match get_app_status db with
         | Some status =>
             Some {| AppStatus.id := AppStatus.id status;
                     AppStatus.last_refreshed_at := Some refresh_time |}
         | None =>
             Some {| AppStatus.id := 1;
                     AppStatus.last_refreshed_at := Some refresh_time |}
         end |}.

End crud.

(** ** services.py *)

Module services.
Import py models schemas database.

(** What [client.get(url, timeout=10.0)] comes back with: a response, or an
    [httpx.RequestError] (of which [httpx.TimeoutException] is a subclass). *)
Inductive http_outcome (A : Type) : Type :=
| Response (status_code : Z) (body : A)
| RequestError (details : string).
Arguments Response {A} status_code body.
Arguments RequestError {A} details.

(** [response.raise_for_status()] returns on a 2xx status and raises
    [httpx.HTTPStatusError] otherwise. *)
Definition is_success (status_code : Z) : bool :=
  (200 <=? status_code)%Z && (status_code <=? 299)%Z.

(** One element of the list [fetch_countries_data] returns. The scalar
    members have the types of the restcountries schema; [flag] is the
    string of the document, which [schemas.validate] has yet to take for a
    URL, and [population] an [int] of any size. [currencies] is left as
    decoded, since the loop inspects its shape. [None] is an absent key or
    a JSON null. *)
Module country_data.
Record t : Type := mk {
  name : option string;
  capital : option string;
  region : option string;
  population : option Z;
  currencies : option json;
  flag : option string
}.
End country_data.

(** Everything one refresh cycle reads from outside the process: the
    answers of the two sources and, should both fail, which fails first; the
    one reading of [datetime.now(timezone.utc)]; what [func.now()] gives at
    the k-th write; the generator's output behind the k-th [random.randint];
    whether [img.save] succeeds. *)
Record World : Type := mkWorld {
  rates_response : http_outcome (gmap string number);
  countries_response : http_outcome (list country_data.t);
  countries_fails_first : bool;
  utc_now : Time;
  db_now : nat -> Time;
  random_bits : nat -> Z;
  image_saved : bool
}.

(** The body of each fetch is [get], [raise_for_status], [json] under
    [except (httpx.RequestError, httpx.TimeoutException)]: a failure of the
    transport becomes [ServiceUnavailableException], the exception of
    [raise_for_status] is none of the two classes and passes through. The
    body of the response is taken as decoded. *)
Definition fetch_exchange_rates (w : World) : result (gmap string number) :=
  match rates_response w with
  | Response status_code rates =>
      if is_success status_code then Return rates
      else Raise (HTTPStatusError status_code)
  | RequestError details =>
      Raise (ServiceUnavailableException "Exchange Rates API" details)
  end.

Definition fetch_countries_data (w : World) : result (list country_data.t) :=
  match countries_response w with
  | Response status_code countries =>
      if is_success status_code then Return countries
      else Raise (HTTPStatusError status_code)
  | RequestError details =>
      Raise (ServiceUnavailableException "RestCountries API" details)
  end.

(** [asyncio.gather(a, b)]: both results, or the exception of the call that
    fails first. *)
Definition gather {A B : Type} (b_fails_first : bool) (a : result A) (b : result B)
    : result (A * B) :=
  match a, b with
  | Return x, Return y => Return (x, y)
  | Raise e, Return _ => Raise e
  | Return _, Raise e => Raise e
  | Raise ea, Raise eb => Raise (if b_fails_first then eb else ea)
  end.

(** The session of the cycle, with the number of rows written and of random
    numbers drawn so far. *)
Record Cycle : Type := mkCycle {
  db : AsyncSession;
  writes : nat;
  draws : nat
}.

(** [process_and_cache_countries], the block "Handle currency data": the
    value left in [currency_code]. *)
Definition first_currency_code (currencies : option json) : json :=
  match currencies with
  | Some (JArray (first_currency :: _)) =>
      match first_currency with
      | JObject members => dict_get members "code"
      | _ => JNull
      end
  | _ => JNull
  end.

(** [process_and_cache_countries], the block "Calculate GDP if possible":
    [(currency_code, exchange_rate, estimated_gdp)] and whether a random
    number was drawn. A truthy
    [currency_code] that is no string cannot be stored: a list or a dict is
    unhashable in [currency_code in rates], anything else is refused by
    [schemas.CountryCreate]. *)
Definition estimate (rates : gmap string number) (population : Z) (currency_code : json)
    (bits : Z) : result (option string * option number * option float * bool) :=
  if truthy currency_code then
    match currency_code with
    | JString code =>
        match rates !! code with
        | Some exchange_rate =>
            if positive exchange_rate then
              let random_multiplier := randint 1000 2000 bits in
              match truediv (population * random_multiplier) exchange_rate with
              | Return estimated_gdp =>
                  Return (Some code, Some exchange_rate, Some estimated_gdp, true)
              | Raise e => Raise e
              end
            else Return (Some code, Some exchange_rate, Some (Finite 0), false)
        | None => Return (Some code, None, None, false)
        end
    | JArray _ | JObject _ => Raise TypeError
    | _ => Raise ValidationError
    end
  else Return (None, None, Some (Finite 0), false).

(** The body of [for country_data in countries]. *)
Definition process_country (w : World) (rates : gmap string number) (c : Cycle)
    (cd : country_data.t) : result Cycle :=
  match country_data.name cd, country_data.population cd with
  | Some name, Some population =>
      if negb (truthy (JString name)) then Return c
      else
        match estimate rates population
                (first_currency_code (country_data.currencies cd))
                (random_bits w (draws c)) with
        | Raise e => Raise e
        | Return (currency_code, exchange_rate, estimated_gdp, drawn) =>
            match validate (HttpUrl (bind (db c))) name
                    (country_data.capital cd) (country_data.region cd) population
                    currency_code exchange_rate estimated_gdp
                    (country_data.flag cd) with
            | Raise e => Raise e
            | Return country_payload =>
                match crud.upsert_country (db c) country_payload
                        (db_now w (writes c)) with
                | Raise e => Raise e
                | Return (_, db') =>
                    Return {| db := db';
                              writes := S (writes c);
                              draws := if drawn then S (draws c) else draws c |}
                end
            end
        end
  | _, _ => Return c
  end.

Fixpoint process_countries (w : World) (rates : gmap string number)
    (countries : list country_data.t) (c : Cycle) : Cycle * option exn :=
  match countries with
  | [] => (c, None)
  | cd :: rest =>
      match process_country w rates c cd with
      | Return c' => process_countries w rates rest c'
      | Raise e => (c, Some e)
      end
  end.

(** What the summary image shows. *)
Record Summary : Type := mkSummary {
  total : nat;
  top_5 : list Country.t;
  timestamp : option Time
}.

Definition generate_summary_image (w : World) (db : AsyncSession) : result Summary :=
  let total := crud.get_countries_count db in
  let top_5 := crud.get_top_gdp_countries db 5 in
  let status := crud.get_app_status db in
  let timestamp :=
    match status with
    | Some st => AppStatus.last_refreshed_at st
    | None => None
    end in
  if image_saved w
  then Return {| total := total; top_5 := top_5; timestamp := timestamp |}
  else Raise OSError.

Record Refreshed : Type := mkRefreshed {
  status : string;
  refreshed_at : Time
}.

Definition process_and_cache_countries (w : World) (db : AsyncSession)
    : result Refreshed * AsyncSession :=
  match gather (countries_fails_first w)
               (fetch_exchange_rates w) (fetch_countries_data w) with
  | Raise e => (Raise e, db)
  | Return (rates, countries) =>
      let refresh_time := utc_now w in
      match process_countries w rates countries
              {| db := db; writes := 0; draws := 0 |} with
      | (c, Some e) => (Raise e, services.db c)
      | (c, None) =>
          let db := crud.update_app_status (services.db c) refresh_time in
          let db := commit db in
          match generate_summary_image w db with
          | Raise e => (Raise e, db)
          | Return _ =>
              (Return {| status := "success"; refreshed_at := refresh_time |}, db)
          end
      end
  end.

End services.

(** ** main.py *)

Module main.
Import py models schemas database services.

Inductive Content : Type :=
| Error (error : string) (details : option string)
| RefreshResult (status : string) (refreshed_at : Time).

Record JSONResponse : Type := mkResponse {
  status_code : Z;
  content : Content
}.

Definition service_unavailable_handler (api_name details : string) : JSONResponse :=
  {| status_code := 503;
     content := Error "External data source unavailable"
                      (Some ("Could not fetch data from " ++ api_name)) |}.

Definition generic_exception_handler (exc : exn) : JSONResponse :=
  {| status_code := 500; content := Error "Internal server error" None |}.

(** The handler FastAPI selects for an exception leaving an endpoint. *)
Definition exception_handler (exc : exn) : JSONResponse :=
  match exc with
  | ServiceUnavailableException api_name details =>
      service_unavailable_handler api_name details
  | _ => generic_exception_handler exc
  end.

(** POST /countries/refresh, with the session of [Depends(get_db)] closed
    when the request ends. *)
Definition refresh_countries_data (w : World) (db : AsyncSession)
    : JSONResponse * AsyncSession :=
  match process_and_cache_countries w db with
  | (Return result, db') =>
      ({| status_code := 200;
          content := RefreshResult (services.status result)
                                   (services.refreshed_at result) |},
       close db')
  | (Raise exc, db') => (exception_handler exc, close db')
  end.

(** GET /countries *)
Definition get_all_countries (db : AsyncSession) (region currency sort : option string)
    : list Country.t :=
  crud.get_countries db region currency sort 0 100.

End main.

(** ** config.py *)

Module config.

(** A path is the list of its components from the root of the file system.
    [ROOT_DIR] is the parent of the directory of [config.py]. *)
Definition IMAGE_PATH (ROOT_DIR : list string) : list string :=
  (ROOT_DIR ++ ["cache"; "summary.png"])%list.

End config.

(** ** services.py, saving the image *)

Module files.
Import py.

(** The directories and the regular files that exist, and the working
    directory of the process. Permissions are not modelled. *)
Record FileSystem : Type := mkFileSystem {
  dirs : gset (list string);
  regular : gset (list string);
  cwd : list string
}.

(** [os.path.exists] of an absolute path. *)
Definition exists_ (fs : FileSystem) (path : list string) : bool :=
  bool_decide (path ∈ dirs fs) || bool_decide (path ∈ regular fs).

(** [os.makedirs(name)] for a relative path of one component: the directory
    is made in the working directory, which has to exist, and the path has
    to be free. *)
Definition makedirs (fs : FileSystem) (name : string) : result FileSystem :=
  if bool_decide (cwd fs ∈ dirs fs) && negb (exists_ fs (cwd fs ++ [name])%list)
  then Return {| dirs := dirs fs ∪ {[(cwd fs ++ [name])%list]};
                 regular := regular fs; cwd := cwd fs |}
  else Raise OSError.

(** [img.save(path)]: the file is opened for writing, so its directory has to
    exist and the path must not be a directory. *)
Definition save (fs : FileSystem) (path : list string) : result FileSystem :=
  if bool_decide (removelast path ∈ dirs fs) && negb (bool_decide (path ∈ dirs fs))
  then Return {| dirs := dirs fs; regular := regular fs ∪ {[path]}; cwd := cwd fs |}
  else Raise OSError.

(** [generate_summary_image], from "Ensure cache directory exists" to the
    end: the check and [makedirs] are on the relative path ['cache'], the
    image goes to [IMAGE_PATH]. *)
Definition save_summary_image (fs : FileSystem) (ROOT_DIR : list string)
    : result FileSystem :=
  match (if negb (exists_ fs (cwd fs ++ ["cache"])%list) then makedirs fs "cache"
         else Return fs) with
  | Return fs' => save fs' (config.IMAGE_PATH ROOT_DIR)
  | Raise e => Raise e
  end.

End files.

(** ** main.py, the other handlers and endpoints, and the routes *)

Module routes.
Import py models schemas database services.

(** One component of the location of a validation error: a name or an index
    into a list. *)
Inductive loc_item : Type :=
| Key (s : string)
| Index (n : nat).

(** [str(field)] *)
Definition str (x : loc_item) : string :=
  match x with
  | Key s => s
  | Index n => NilEmpty.string_of_uint (Nat.to_uint n)
  end.

(** One entry of [exc.errors()]. *)
Record error_t : Type := mkError {
  loc : list loc_item;
  msg : string
}.

Record ValidationResponse : Type := mkValidationResponse {
  validation_status_code : Z;
  validation_error : string;
  validation_details : gmap string string
}.

(** [error["loc"][-1] if len(error["loc"]) > 1 else "body"], as a string. *)
Definition field (e : error_t) : string :=
  match loc e with
  | _ :: _ :: _ => str (List.last (loc e) (Key "body"))
  | _ => "body"
  end.

Definition validation_exception_handler (errors : list error_t) : ValidationResponse :=
  {| validation_status_code := 400;
     validation_error := "Validation failed";
     validation_details :=
       fold_left (fun details error => <[field error := msg error]> details) errors ∅ |}.

(** What an endpoint gives back: a value, or [raise HTTPException]. *)
Inductive reply (A : Type) : Type :=
| Ok (a : A)
| HTTPException (status_code : Z) (detail : string).
Arguments Ok {A} a.
Arguments HTTPException {A} status_code detail.

Definition http_exception_handler (status_code : Z) (detail : string)
    : main.JSONResponse :=
  {| main.status_code := status_code; main.content := main.Error detail None |}.

(** GET /countries/{name} *)
Definition get_country_by_name (db : AsyncSession) (name : string) : reply Country.t :=
  match crud.get_country_by_name db name with
  | None => HTTPException 404 "Country not found"
  | Some db_country => Ok db_country
  end.

(** DELETE /countries/{name}: the status and the message of the body. *)
Definition delete_country (db : AsyncSession) (name : string)
    : reply (string * string) * AsyncSession :=
  match crud.delete_country_by_name db name with
  | (None, db') => (HTTPException 404 "Country not found", db')
  | (Some deleted_country, db') =>
      (Ok ("success", "Successfully deleted " ++ Country.name deleted_country), db')
  end.

Record StatusResponse : Type := mkStatusResponse {
  total_countries : nat;
  last_refreshed_at : option Time
}.

(** GET /status *)
Definition get_status (db : AsyncSession) : StatusResponse :=
  let total := crud.get_countries_count db in
  let status_record := crud.get_app_status db in
  let timestamp :=
    match status_record with
    | Some st => AppStatus.last_refreshed_at st
    | None => None
    end in
  {| total_countries := total; last_refreshed_at := timestamp |}.

(** What a request is answered with. *)
Inductive Answer : Type :=
| JSON (response : main.JSONResponse)
| Countries (rows : list Country.t)
| OneCountry (row : Country.t)
| Deleted (status message : string)
| Status (response : StatusResponse)
| FileResponse (path : list string) (media_type : string)
| NotFound
| MethodNotAllowed.

(** GET /countries/image, the function. *)
Definition get_summary_image (fs : files.FileSystem) (ROOT_DIR : list string) : Answer :=
  let image_path := config.IMAGE_PATH ROOT_DIR in
  if negb (files.exists_ fs image_path)
  then JSON {| main.status_code := 404;
               main.content :=
                 main.Error
                   "Summary image not found. Run /countries/refresh to generate it."
                   None |}
  else FileResponse image_path "image/png".

(** The routes, in the order the decorators add them to the application. *)
Inductive Endpoint : Type :=
| to_refresh_countries_data
| to_get_all_countries
| to_get_country_by_name
| to_delete_country
| to_get_status
| to_get_summary_image.

Inductive Piece : Type :=
| Fixed (s : string)
| Param (name : string).

Record Route : Type := mkRoute {
  route_method : string;
  route_path : list Piece;
  endpoint : Endpoint
}.

Definition route_table : list Route :=
  [ {| route_method := "POST"; route_path := [Fixed "countries"; Fixed "refresh"];
       endpoint := to_refresh_countries_data |};
    {| route_method := "GET"; route_path := [Fixed "countries"];
       endpoint := to_get_all_countries |};
    {| route_method := "GET"; route_path := [Fixed "countries"; Param "name"];
       endpoint := to_get_country_by_name |};
    {| route_method := "DELETE"; route_path := [Fixed "countries"; Param "name"];
       endpoint := to_delete_country |};
    {| route_method := "GET"; route_path := [Fixed "status"];
       endpoint := to_get_status |};
    {| route_method := "GET"; route_path := [Fixed "countries"; Fixed "image"];
       endpoint := to_get_summary_image |} ].

(** A request: its method, the components of its path (none of them empty)
    and its query parameters. *)
Record Request : Type := mkRequest {
  method : string;
  url_path : list string;
  query_params : gmap string string
}.

(** The path of a route against the path of a request: the values of the
    path parameters when every component matches, a parameter matching any
    one component. *)
Fixpoint path_params (pattern : list Piece) (path : list string)
    : option (list (string * string)) :=
  match pattern, path with
  | [], [] => Some []
  | Fixed s :: pattern', x :: path' =>
      if String.eqb s x then path_params pattern' path' else None
  | Param name :: pattern', x :: path' =>
      match path_params pattern' path' with
      | Some params => Some ((name, x) :: params)
      | None => None
      end
  | _, _ => None
  end.

Inductive Dispatch : Type :=
| Handle (e : Endpoint) (params : list (string * string))
| NoMethod
| NoRoute.

(** The router: the first route whose path and method match handles the
    request; failing that, a route whose path alone matched makes it a 405. *)
Fixpoint router (routes : list Route) (request : Request) (partial : bool) : Dispatch :=
  match routes with
  | [] => if partial then NoMethod else NoRoute
  | r :: rest =>
      match path_params (route_path r) (url_path request) with
      | Some params =>
          if String.eqb (route_method r) (method request)
          then Handle (endpoint r) params
          else router rest request true
      | None => router rest request partial
      end
  end.

Fixpoint param (params : list (string * string)) (name : string) : string :=
  match params with
  | [] => ""
  | (k, v) :: rest => if String.eqb k name then v else param rest name
  end.

(** The session [Depends(get_db)] hands to an endpoint. *)
Definition get_db (engine : Deployment) (store : Store) : AsyncSession :=
  {| bind := engine; committed := store; pending := store |}.

(** The application: one request against the committed store, in a world
    and on a file system; the answer and the store the request leaves. *)
Definition app (engine : Deployment) (ROOT_DIR : list string) (w : World)
    (fs : files.FileSystem) (store : Store) (request : Request) : Answer * Store :=
  let db := get_db engine store in
  match router route_table request false with
  | Handle to_refresh_countries_data _ =>
      let (response, db') := main.refresh_countries_data w db in
      (JSON response, committed db')
  | Handle to_get_all_countries _ =>
      (Countries (main.get_all_countries db (query_params request !! "region")
                    (query_params request !! "currency")
                    (query_params request !! "sort")),
       committed (close db))
  | Handle to_get_country_by_name params =>
      (match get_country_by_name db (param params "name") with
       | Ok row => OneCountry row
       | HTTPException status_code detail =>
           JSON (http_exception_handler status_code detail)
       end,
       committed (close db))
  | Handle to_delete_country params =>
      let (r, db') := delete_country db (param params "name") in
      (match r with
       | Ok (status, message) => Deleted status message
       | HTTPException status_code detail =>
           JSON (http_exception_handler status_code detail)
       end,
       committed (close db'))
  | Handle to_get_status _ => (Status (get_status db), committed (close db))
  | Handle to_get_summary_image _ =>
      (get_summary_image fs ROOT_DIR, committed (close db))
  | NoMethod => (MethodNotAllowed, store)
  | NoRoute => (NotFound, store)
  end.

End routes.

(** ** Properties the specification states *)

Import py models schemas database.
Open Scope Z_scope.

(** [x] may precede [y] in a listing ordered by [before]. *)
Definition precedes {A : Type} (before : A -> A -> bool) (x y : A) : Prop :=
  before x y = true.

(** A listing in descending GDP order with NULL last: of two rows, the later
    one is never a value after a NULL, nor a larger value after a smaller. *)
Definition gdp_desc_nulls_last (l : list Country.t) : Prop :=
  forall i j ci cj,
    (i < j)%nat -> nth_error l i = Some ci -> nth_error l j = Some cj ->
    match Country.estimated_gdp ci, Country.estimated_gdp cj with
    | Some x, Some y => float_le y x = true
    | None, Some _ => False
    | _, None => True
    end.

(** A row passes a filter of GET /countries: no filter, an empty one, or
    the value of the column. *)
Definition wanted (filter column : option string) : bool :=
  match filter with
  | None => true
  | Some v =>
      if String.eqb v "" then true
      else match column with
           | Some c => String.eqb c v
           | None => false
           end
  end.

Definition selected (region currency : option string) (r : Country.t) : bool :=
  wanted region (Country.region r) && wanted currency (Country.currency_code r).

Definition gdp_desc_requested (sort : option string) : bool :=
  match sort with
  | Some s => String.eqb s "gdp_desc"
  | None => false
  end.

(** A listing in ascending order of name. *)
Definition name_ascending (l : list Country.t) : Prop :=
  forall i j ci cj,
    (i < j)%nat -> nth_error l i = Some ci -> nth_error l j = Some cj ->
    String.leb (Country.name ci) (Country.name cj) = true.

(** The row has an estimated GDP. *)
Definition valued (r : Country.t) : bool :=
  match Country.estimated_gdp r with
  | Some _ => true
  | None => false
  end.

(** The record is not passed over by the loop: it has a name, not empty,
    and a population. *)
Definition kept (cd : services.country_data.t) : bool :=
  match services.country_data.name cd, services.country_data.population cd with
  | Some n, Some _ => negb (String.eqb n "")
  | _, _ => false
  end.

(** The first currency of the record has a code that counts as true and is
    no string. *)
Definition unstorable_code (cd : services.country_data.t) : bool :=
  match services.first_currency_code (services.country_data.currencies cd) with
  | JString _ => false
  | code => truthy code
  end.

(** The status table holds no row, or the one row of key 1. *)
Definition singleton_status (s : Store) : Prop :=
  match app_status s with
  | Some st => AppStatus.id st = 1
  | None => True
  end.

(** The engine lower-cases the name to what Python lower-cases it to. *)
Definition agree (engine : Deployment) (name : string) : Prop :=
  lower engine name = str_lower engine name.

(** The engine lower-cases as Python does the name of every record of the
    list that the loop does not pass over. *)
Definition agree_on (engine : Deployment) (l : list services.country_data.t) : Prop :=
  forall cd n, In cd l -> kept cd = true -> services.country_data.name cd = Some n ->
    agree engine n.

(** The store is consistent: the primary key is unique, no two rows have
    names that the engine lower-cases to the same string, and the
    autoincrement counter is above every key. *)
Definition consistent (engine : Deployment) (s : Store) : Prop :=
  List.NoDup (map Country.id (countries s))
  /\ List.NoDup (map (fun c => lower engine (Country.name c)) (countries s))
  /\ Forall (fun c => Country.id c < next_id s) (countries s).

(** The payload columns of a row. *)
Definition payload (c : Country.t) : CountryCreate.t :=
  {| CountryCreate.name := Country.name c;
     CountryCreate.capital := Country.capital c;
     CountryCreate.region := Country.region c;
     CountryCreate.population := Country.population c;
     CountryCreate.currency_code := Country.currency_code c;
     CountryCreate.exchange_rate := Country.exchange_rate c;
     CountryCreate.estimated_gdp := Country.estimated_gdp c;
     CountryCreate.flag_url := Country.flag_url c |}.

(** The row an INSERT of the payload makes. *)
Definition inserted (s : Store) (d : CountryCreate.t) (t : Time) : Country.t :=
  {| Country.id := next_id s;
     Country.name := CountryCreate.name d;
     Country.capital := CountryCreate.capital d;
     Country.region := CountryCreate.region d;
     Country.population := CountryCreate.population d;
     Country.currency_code := CountryCreate.currency_code d;
     Country.exchange_rate := CountryCreate.exchange_rate d;
     Country.estimated_gdp := CountryCreate.estimated_gdp d;
     Country.flag_url := CountryCreate.flag_url d;
     Country.last_refreshed_at := t |}.

(** The [int] is within the range of a [float]: converting it raises
    nothing. *)
Definition in_float_range (z : Z) : bool := negb (overflows (inject_Z z)).

(** An exception that the handler for every other exception answers. *)
Definition internal (e : exn) : Prop :=
  match e with
  | ServiceUnavailableException _ _ => False
  | _ => True
  end.

(** The row that the turn of the loop for a record writes: the row that
    [upsert_country] returns to it, when the turn gets that far. *)
Definition written (w : services.World) (rates : gmap string number) (c : services.Cycle)
    (cd : services.country_data.t) : option Country.t :=
  match services.country_data.name cd, services.country_data.population cd with
  | Some name, Some population =>
      if negb (truthy (JString name)) then None
      else
        match services.estimate rates population
                (services.first_currency_code (services.country_data.currencies cd))
                (services.random_bits w (services.draws c)) with
        | Return (currency_code, exchange_rate, estimated_gdp, _) =>
            match validate (HttpUrl (bind (services.db c))) name
                    (services.country_data.capital cd) (services.country_data.region cd)
                    population currency_code exchange_rate estimated_gdp
                    (services.country_data.flag cd) with
            | Return country_payload =>
                match crud.upsert_country (services.db c) country_payload
                        (services.db_now w (services.writes c)) with
                | Return (row, _) => Some row
                | Raise _ => None
                end
            | Raise _ => None
            end
        | Raise _ => None
        end
  | _, _ => None
  end.

(** The column [exchange_rate] of a rate of the table. *)
Definition stored_rate (rate : option number) (column : option float) : Prop :=
  match rate with
  | Some x => exists f, to_float x = Return f /\ column = Some f
  | None => column = None
  end.




(** The same world, the countries source answering with another list. *)
Definition answering (w : services.World) (status_code : Z)
    (countries : list services.country_data.t) : services.World :=
  {| services.rates_response := services.rates_response w;
     services.countries_response := services.Response status_code countries;
     services.countries_fails_first := services.countries_fails_first w;
     services.utc_now := services.utc_now w;
     services.db_now := services.db_now w;
     services.random_bits := services.random_bits w;
     services.image_saved := services.image_saved w |}.

(** ** Sample data *)

(** Lower-casing of the ASCII letters alone, what SQLite's built-in
    [lower()] does. *)
Definition ascii_lower_char (c : ascii) : ascii :=
  let n := nat_of_ascii c in
  if (65 <=? n)%nat && (n <=? 90)%nat then ascii_of_nat (n + 32) else c.

Fixpoint ascii_lower (s : string) : string :=
  match s with
  | EmptyString => EmptyString
  | String c s' => String (ascii_lower_char c) (ascii_lower s')
  end.

(** Lower-casing of UTF-8 text whose letters are ASCII or of the Latin-1
    supplement, where [str.lower] moves U+00C0..U+00DE, the sign U+00D7
    apart, up by 32: after the lead byte 195 the bytes 128..158, 151 apart. *)
Fixpoint latin_lower_from (after_lead : bool) (s : string) : string :=
  match s with
  | EmptyString => EmptyString
  | String c s' =>
      let n := nat_of_ascii c in
      if after_lead && (128 <=? n)%nat && (n <=? 158)%nat && negb (n =? 151)%nat
      then String (ascii_of_nat (n + 32)) (latin_lower_from false s')
      else String (ascii_lower_char c) (latin_lower_from (n =? 195)%nat s')
  end.

Definition latin_lower (s : string) : string := latin_lower_from false s.

(** A validation of URLs that takes what starts with a scheme of HTTP. *)
Definition http_url (s : string) : option string :=
  if String.prefix "http://" s || String.prefix "https://" s then Some s else None.

(** Rows of equal rank in the order of the table, whatever the listing. *)
Definition table_order (region currency sort : option string) (a b : Country.t) : bool :=
  true.

(** Rows of equal rank in the order of the table, and in the opposite order
    where an index is read backwards for a descending sort. *)
Definition index_order (region currency sort : option string) (a b : Country.t) : bool :=
  negb (gdp_desc_requested sort).

(** An engine that lower-cases as Python does, behind a driver that takes a
    URL object. *)
Definition deployed (r : NullRank) : Deployment :=
  {| nulls := r; lower := latin_lower; visit := table_order; binds_url := true;
     str_lower := latin_lower; HttpUrl := http_url |}.

(** SQLite: NULL ranks lowest, [lower()] knows the ASCII letters only, and
    the driver takes no URL object. *)
Definition sqlite : Deployment :=
  {| nulls := NullsLowest; lower := ascii_lower; visit := index_order;
     binds_url := false; str_lower := latin_lower; HttpUrl := http_url |}.

Definition row (id : Z) (name : string) (gdp : option Q) (at_ : Time) : Country.t :=
  {| Country.id := id; Country.name := name; Country.capital := None;
     Country.region := Some "Africa"; Country.population := 1000;
     Country.currency_code := Some "NGN"; Country.exchange_rate := None;
     Country.estimated_gdp := option_map Finite gdp; Country.flag_url := None;
     Country.last_refreshed_at := at_ |}.

Definition store_of (rows : list Country.t) : Store :=
  {| countries := rows; next_id := 1 + Z.of_nat (length rows); app_status := None |}.

Definition session_on (engine : Deployment) (rows : list Country.t) : AsyncSession :=
  {| bind := engine; committed := store_of rows; pending := store_of rows |}.

Definition session (r : NullRank) (rows : list Country.t) : AsyncSession :=
  session_on (deployed r) rows.

Definition three_rows : list Country.t :=
  [row 1 "Nigeria" (Some (5 # 1)) 10; row 2 "Atlantis" None 10;
   row 3 "Ghana" (Some (7 # 1)) 10].

Definition create (name : string) (population : Z) (gdp : option Q) : CountryCreate.t :=
  {| CountryCreate.name := name; CountryCreate.capital := None;
     CountryCreate.region := None; CountryCreate.population := population;
     CountryCreate.currency_code := None; CountryCreate.exchange_rate := None;
     CountryCreate.estimated_gdp := option_map Finite gdp;
     CountryCreate.flag_url := None |}.

Definition many_rows : list Country.t :=
  map (fun i => row (Z.of_nat i) "Nigeria" (Some (inject_Z (Z.of_nat i))) 10)
      (seq 1 101).

Definition wakanda : services.country_data.t :=
  {| services.country_data.name := Some "Wakanda";
     services.country_data.capital := None;
     services.country_data.region := None;
     services.country_data.population := Some 1000000;
     services.country_data.currencies := None;
     services.country_data.flag := None |}.

Definition country (name : string) (population : Z) (currencies : json)
    : services.country_data.t :=
  {| services.country_data.name := Some name;
     services.country_data.capital := None;
     services.country_data.region := Some "Africa";
     services.country_data.population := Some population;
     services.country_data.currencies := Some currencies;
     services.country_data.flag := None |}.

Definition currency (code : string) : json :=
  JObject [("code", JString code); ("name", JString "money")].

Definition nameless : services.country_data.t :=
  {| services.country_data.name := None;
     services.country_data.capital := Some "Nowhere";
     services.country_data.region := None;
     services.country_data.population := Some 5;
     services.country_data.currencies := Some (JArray [currency "USD"]);
     services.country_data.flag := None |}.

(** With a flag, as the records of the source are. *)
Definition flagged (name flag : string) : services.country_data.t :=
  {| services.country_data.name := Some name;
     services.country_data.capital := None;
     services.country_data.region := None;
     services.country_data.population := Some 30000;
     services.country_data.currencies := None;
     services.country_data.flag := Some flag |}.

Definition sample_rates : gmap string number :=
  <["NGN" := Float (Finite 2)]>
    (<["USD" := Int 1]> (<["ZWL" := Int 0]> (<["EUR" := Float (Finite 3)]> ∅))).

Definition world (rates_response : services.http_outcome (gmap string number))
    (countries_response : services.http_outcome (list services.country_data.t))
    (image_saved : bool) : services.World :=
  {| services.rates_response := rates_response;
     services.countries_response := countries_response;
     services.countries_fails_first := false;
     services.utc_now := 100;
     services.db_now := fun k => 105 + Z.of_nat k;
     services.random_bits := fun k => 7 + Z.of_nat k;
     services.image_saved := image_saved |}.

Definition fresh (db : AsyncSession) : services.Cycle :=
  {| services.db := db; services.writes := 0; services.draws := 0 |}.

Definition unknown_sort : option string := Some "name_desc".

Definition request (method : string) (url_path : list string) : routes.Request :=
  {| routes.method := method; routes.url_path := url_path;
     routes.query_params := ∅ |}.

Definition project : list string := ["srv"; "api"].

Definition disk (cwd : list string) : files.FileSystem :=
  {| files.dirs := {[ []; ["srv"]; ["srv"; "api"]; ["srv"; "api"; "app"]; ["tmp"] ]};
     files.regular := ∅;
     files.cwd := cwd |}.

(** ** The query layer *)

Example get_country_by_name_finds_nigeria :
  crud.get_country_by_name (session NullsLowest three_rows) "NIGERIA"
  = Some (row 1 "Nigeria" (Some (5 # 1)) 10).
Proof. reflexivity. Qed.

(** *** Ordering *)

Lemma In_firstn {A : Type} (x : A) n : forall l, In x (firstn n l) -> In x l.
Proof.
  induction n as [|n IH]; intros [|a l]; simpl; try tauto.
  intros [->|H]; [now left | right; now apply IH].
Qed.

Section OrderBy.
Context {A : Type} (before : A -> A -> bool).
Hypothesis before_total : forall x y, before x y = false -> before y x = true.
Hypothesis before_trans :
  forall x y z, before x y = true -> before y z = true -> before x z = true.

Lemma insert_row_In x l y : In y (insert_row before x l) <-> y = x \/ In y l.
Proof using Type.
  induction l as [|z l IH]; simpl.
  - intuition.
  - destruct (before x z); simpl; rewrite ?IH; intuition.
Qed.

Lemma insert_row_sorted x l :
  StronglySorted (precedes before) l -> StronglySorted (precedes before) (insert_row before x l).
Proof using before_total before_trans.
  induction 1 as [|z l Hs IH Hz]; simpl.
  - repeat constructor.
  - destruct (before x z) eqn:E.
    + constructor; [now constructor|].
      constructor; [exact E|].
      eapply List.Forall_impl; [|exact Hz]. intros a Ha. exact (before_trans _ _ _ E Ha).
    + constructor; [exact IH|].
      apply List.Forall_forall. intros a Ha. apply insert_row_In in Ha as [->|Ha].
      * exact (before_total _ _ E).
      * revert a Ha. now apply List.Forall_forall.
Qed.

Lemma order_by_sorted l : StronglySorted (precedes before) (order_by before l).
Proof using before_total before_trans.
  induction l; simpl; [constructor | now apply insert_row_sorted].
Qed.

Lemma sorted_skipn n : forall l,
  StronglySorted (precedes before) l -> StronglySorted (precedes before) (skipn n l).
Proof using Type.
  induction n as [|n IH]; intros l Hs; [exact Hs|].
  destruct l; [exact Hs|]. simpl. apply IH. now inversion Hs.
Qed.

Lemma sorted_firstn n : forall l,
  StronglySorted (precedes before) l -> StronglySorted (precedes before) (firstn n l).
Proof using Type.
  induction n as [|n IH]; intros l Hs; [constructor|].
  destruct l as [|a l]; [constructor|]. simpl. inversion Hs; subst.
  constructor; [now apply IH|].
  apply List.Forall_forall. intros b Hb. apply In_firstn in Hb.
  revert b Hb. now apply List.Forall_forall.
Qed.

Lemma sorted_nth l : StronglySorted (precedes before) l ->
  forall i j a b, (i < j)%nat ->
    nth_error l i = Some a -> nth_error l j = Some b -> before a b = true.
Proof using Type.
  induction 1 as [|z l Hs IH Hz]; intros i j a b Hij Hi Hj.
  - destruct i; discriminate.
  - destruct j as [|j]; [lia|]. simpl in Hj.
    destruct i as [|i]; simpl in Hi.
    + injection Hi as <-. apply nth_error_In in Hj.
      revert b Hj. now apply List.Forall_forall.
    + apply (IH i j); [lia | assumption..].
Qed.

End OrderBy.

Lemma insert_row_perm {A : Type} (before : A -> A -> bool) x l :
  Permutation (insert_row before x l) (x :: l).
Proof.
  induction l as [|y l IH]; simpl; [reflexivity|].
  destruct (before x y); [reflexivity|].
  rewrite IH. apply perm_swap.
Qed.

Lemma order_by_perm {A : Type} (before : A -> A -> bool) l :
  Permutation (order_by before l) l.
Proof.
  induction l as [|x l IH]; simpl; [reflexivity|].
  rewrite insert_row_perm. now constructor.
Qed.

(** Whatever the order of the visit, the engine sorts the rows of the
    table. *)
Lemma visited_perm db region currency sort rows :
  Permutation (visited db region currency sort rows) rows.
Proof. apply order_by_perm. Qed.

Lemma float_le_total x y : float_le x y = false -> float_le y x = true.
Proof.
  destruct x as [a|[|]], y as [b|[|]]; simpl; try (discriminate || reflexivity).
  intros H. apply Qle_bool_iff. apply Qlt_le_weak, Qnot_le_lt.
  intros Hle. apply Qle_bool_iff in Hle. congruence.
Qed.

Lemma float_le_trans x y z :
  float_le x y = true -> float_le y z = true -> float_le x z = true.
Proof.
  destruct x as [a|[|]], y as [b|[|]], z as [c|[|]]; simpl;
    try (discriminate || reflexivity).
  rewrite !Qle_bool_iff. intros. eapply Qle_trans; eassumption.
Qed.

Lemma desc_total r a b : desc r a b = false -> desc r b a = true.
Proof.
  unfold desc, asc. destruct a as [x|], b as [y|], r; try (discriminate || reflexivity).
  all: apply float_le_total.
Qed.

Lemma desc_trans r a b c :
  desc r a b = true -> desc r b c = true -> desc r a c = true.
Proof.
  unfold desc, asc.
  destruct a as [x|], b as [y|], c as [z|], r; try (discriminate || reflexivity).
  all: intros; eapply float_le_trans; eassumption.
Qed.

Lemma order_by_gdp_desc_nulls_last (rows : list Country.t) (skip limit : nat) :
  gdp_desc_nulls_last
    (firstn limit
       (skipn skip
          (order_by (fun a b => desc NullsLowest (Country.estimated_gdp a)
                                     (Country.estimated_gdp b)) rows))).
Proof.
  intros i j ci cj Hij Hi Hj.
  pose proof (sorted_nth _ _
    (sorted_firstn _ limit _
       (sorted_skipn _ skip _
          (order_by_sorted
             (fun a b => desc NullsLowest (Country.estimated_gdp a)
                              (Country.estimated_gdp b))
             (fun x y => desc_total _ _ _)
             (fun x y z => desc_trans _ _ _ _) rows)))
    i j ci cj Hij Hi Hj) as H.
  cbv beta in H. unfold desc, asc in H.
  destruct (Country.estimated_gdp ci), (Country.estimated_gdp cj);
    try discriminate; try exact I.
  exact H.
Qed.

(** Where the engine ranks NULL below every value, [get_countries] with
    [sort = "gdp_desc"] and [get_top_gdp_countries] do return their rows
    with every NULL [estimated_gdp] after every value and the values
    non-increasing, whatever the store, the filters and the page. *)
Lemma gdp_desc_nulls_last_where_null_ranks_lowest (db : AsyncSession)
    (region currency : option string) (skip limit n : nat) :
  null_rank db = NullsLowest ->
  gdp_desc_nulls_last (crud.get_countries db region currency (Some "gdp_desc") skip limit)
  /\ gdp_desc_nulls_last (crud.get_top_gdp_countries db n).
Proof.
  intros Hrank. unfold crud.get_countries, crud.get_top_gdp_countries.
  rewrite Hrank. split.
  - apply order_by_gdp_desc_nulls_last.
  - apply (order_by_gdp_desc_nulls_last _ 0 n).
Qed.

Example get_countries_gdp_desc_three_rows :
  map Country.name
      (crud.get_countries (session NullsLowest three_rows) None None (Some "gdp_desc") 0 100)
  = ["Ghana"; "Nigeria"; "Atlantis"].
Proof. reflexivity. Qed.

Example get_countries_by_name_three_rows :
  map Country.name
      (crud.get_countries (session NullsLowest three_rows) (Some "Africa") None None 0 100)
  = ["Atlantis"; "Ghana"; "Nigeria"].
Proof. reflexivity. Qed.

(** C1, at an input where the code departs from it. Neither query asks the
    engine for NULLS LAST. On an engine that ranks NULL above every value,
    with a table of Nigeria (5), Atlantis (no estimate) and Ghana (7), both
    [get_countries] with [sort = "gdp_desc"] and [get_top_gdp_countries]
    list Atlantis first, before every row that has an estimate. *)
Theorem gdp_desc_nulls_first_where_null_ranks_highest :
  map Country.name
      (crud.get_countries (session NullsHighest three_rows) None None (Some "gdp_desc") 0 100)
  = ["Atlantis"; "Ghana"; "Nigeria"]
  /\ map Country.name (crud.get_top_gdp_countries (session NullsHighest three_rows) 5)
     = ["Atlantis"; "Ghana"; "Nigeria"]
  /\ ~ gdp_desc_nulls_last
         (crud.get_countries (session NullsHighest three_rows) None None
                             (Some "gdp_desc") 0 100)
  /\ ~ gdp_desc_nulls_last (crud.get_top_gdp_countries (session NullsHighest three_rows) 5).
Proof.
  split; [reflexivity|]. split; [reflexivity|].
  split; intros H;
    exact (H 0%nat 1%nat (row 2 "Atlantis" None 10) (row 3 "Ghana" (Some (7 # 1)) 10)
             ltac:(lia) eq_refl eq_refl).
Qed.

(** *** Paging *)

(** C9. GET /countries passes no [skip] and no [limit], so whatever the
    store, the filters and the sort it answers with the first 100 rows of the
    listing and nothing after them. *)
Theorem get_all_countries_first_100 (db : AsyncSession)
    (region currency sort : option string) :
  (length (main.get_all_countries db region currency sort) <= 100)%nat
  /\ forall k : nat,
       main.get_all_countries db region currency sort
       = firstn 100 (crud.get_countries db region currency sort 0 (100 + k)).
Proof.
  unfold main.get_all_countries, crud.get_countries. split.
  - apply firstn_le_length.
  - intros k. now rewrite firstn_firstn.
Qed.

Example get_all_countries_drops_row_101 :
  length (crud.get_countries (session NullsLowest many_rows) None None (Some "gdp_desc") 0 200)
  = 101%nat
  /\ map Country.id
        (skipn 98 (main.get_all_countries (session NullsLowest many_rows) None None
                                          (Some "gdp_desc")))
     = [3; 2].
Proof. split; vm_compute; reflexivity. Qed.

(** ** The store *)

Lemma NoDup_snoc {A : Type} (x : A) l : List.NoDup l -> ~ In x l -> List.NoDup (l ++ [x]).
Proof.
  induction 1 as [|a l Ha Hl IH]; simpl; intros Hx.
  - constructor; [intros [] | constructor].
  - constructor.
    + rewrite in_app_iff. simpl. intros [H|[H|[]]]; [tauto | subst; tauto].
    + apply IH. tauto.
Qed.

Lemma NoDup_map_filter {A B : Type} (g : A -> B) (p : A -> bool) l :
  List.NoDup (map g l) -> List.NoDup (map g (List.filter p l)).
Proof.
  induction l as [|a l IH]; simpl; intros H; [constructor|].
  inversion H as [|? ? Ha Hl]; subst.
  destruct (p a); simpl; [constructor|]; auto.
  intros Hin. apply Ha. apply in_map_iff in Hin as (c & <- & Hc).
  apply in_map. now apply filter_In in Hc as [Hc _].
Qed.

Lemma filter_unique {A : Type} (g : A -> string) (x : A) l :
  List.NoDup (map g l) -> In x l ->
  List.filter (fun c => String.eqb (g c) (g x)) l = [x].
Proof.
  induction l as [|a l IH]; simpl; intros Hnd Hin; [tauto|].
  inversion Hnd as [|? ? Ha Hl]; subst.
  assert (Hrest : forall y, ~ In (g y) (map g l) ->
            List.filter (fun c => String.eqb (g c) (g y)) l = []).
  { intros y Hy. clear -Hy. induction l as [|b l IH]; simpl in *; [reflexivity|].
    destruct (String.eqb_spec (g b) (g y)) as [E|E]; [tauto|]. apply IH. tauto. }
  destruct Hin as [->|Hin].
  - rewrite String.eqb_refl. f_equal. now apply Hrest.
  - destruct (String.eqb_spec (g a) (g x)) as [E|E].
    + exfalso. apply Ha. rewrite E. now apply in_map.
    + now apply IH.
Qed.

Lemma unique_by {A B : Type} (g : A -> B) l a b :
  List.NoDup (map g l) -> In a l -> In b l -> g a = g b -> a = b.
Proof.
  induction l as [|x l IH]; simpl; intros Hnd Ha Hb E; [tauto|].
  inversion Hnd as [|? ? Hx Hl]; subst.
  destruct Ha as [->|Ha], Hb as [->|Hb]; auto.
  - exfalso. apply Hx. rewrite E. now apply in_map.
  - exfalso. apply Hx. rewrite <- E. now apply in_map.
Qed.

Lemma find_snoc {A : Type} (p : A -> bool) l x :
  List.find p l = None -> p x = true -> List.find p (l ++ [x]) = Some x.
Proof.
  induction l as [|a l IH]; simpl; intros Hf Hx; [now rewrite Hx|].
  destruct (p a); [discriminate | now apply IH].
Qed.

Lemma find_map_fixed {A : Type} (p : A -> bool) (f : A -> A) l :
  (forall a, In a l -> (p a = true -> f a = a) /\ p (f a) = p a) ->
  List.find p (map f l) = List.find p l.
Proof.
  induction l as [|a l IH]; simpl; intros H; [reflexivity|].
  destruct (H a (or_introl eq_refl)) as [Hfix Hp]. rewrite Hp.
  destruct (p a) eqn:E; [now rewrite Hfix|]. apply IH. intros b Hb. apply H. now right.
Qed.

Lemma find_snoc_miss {A : Type} (p : A -> bool) l x :
  p x = false -> List.find p (l ++ [x]) = List.find p l.
Proof.
  intros Hx. induction l as [|a l IH]; simpl; [now rewrite Hx|].
  now destruct (p a).
Qed.

Lemma find_filter_keep {A : Type} (p q : A -> bool) l :
  (forall a, In a l -> p a = true -> q a = true) ->
  List.find p (List.filter q l) = List.find p l.
Proof.
  induction l as [|a l IH]; simpl; intros H; [reflexivity|].
  destruct (p a) eqn:Ep.
  - rewrite (H a (or_introl eq_refl) Ep). simpl. now rewrite Ep.
  - destruct (q a); simpl; rewrite ?Ep; apply IH; intros b Hb; apply H; now right.
Qed.

Lemma find_nowhere {A : Type} (p : A -> bool) l :
  (forall a, In a l -> p a = false) -> List.find p l = None.
Proof.
  induction l as [|a l IH]; simpl; intros H; [reflexivity|].
  rewrite (H a (or_introl eq_refl)). apply IH. intros b Hb. apply H. now right.
Qed.

Lemma filter_out_key {A : Type} (g : A -> Z) (c : A) l :
  List.NoDup (map g l) -> In c l ->
  S (length (List.filter (fun a => negb (g a =? g c)) l)) = length l.
Proof.
  induction l as [|a l IH]; simpl; intros Hnd Hc; [tauto|].
  inversion Hnd as [|? ? Ha Hl]; subst.
  destruct Hc as [->|Hc].
  - rewrite Z.eqb_refl. simpl. f_equal.
    clear -Ha. induction l as [|b l IH]; simpl in *; [reflexivity|].
    destruct (Z.eqb_spec (g b) (g c)) as [E|E]; [tauto|]. simpl. f_equal. apply IH. tauto.
  - destruct (Z.eqb_spec (g a) (g c)) as [E|E]; simpl.
    + exfalso. apply Ha. rewrite E. now apply in_map.
    + f_equal. now apply IH.
Qed.

Lemma filter_out_new_key (rows : list Country.t) (k : Z) :
  Forall (fun c => Country.id c < k) rows ->
  List.filter (fun c => negb (Country.id c =? k)) rows = rows.
Proof.
  induction 1 as [|a l Ha _ IH]; simpl; [reflexivity|].
  destruct (Z.eqb_spec (Country.id a) k); [lia|]. simpl. now rewrite IH.
Qed.

Lemma updated_same_key c c' d t :
  Country.id c = Country.id c' -> crud.updated c d t = crud.updated c' d t.
Proof. unfold crud.updated. now intros ->. Qed.

(** An upsert that returns took its values to the engine, and either
    updated the row found under the name or appended a row. *)
Lemma upsert_country_inv db d t r db' :
  crud.upsert_country db d t = Return (r, db') ->
  crud.bound db d = true
  /\ ((exists c0,
         crud.get_country_by_name db (CountryCreate.name d) = Some c0
         /\ r = crud.updated c0 d t
         /\ db' = with_pending db
                    {| countries :=
                         map (fun c => if Country.id c =? Country.id c0
                                       then crud.updated c d t else c)
                             (countries (pending db));
                       next_id := next_id (pending db);
                       app_status := app_status (pending db) |})
      \/ (crud.get_country_by_name db (CountryCreate.name d) = None
          /\ r = inserted (pending db) d t
          /\ db' = with_pending db
                     {| countries := countries (pending db) ++ [r];
                        next_id := next_id (pending db) + 1;
                        app_status := app_status (pending db) |})).
Proof.
  unfold crud.upsert_country.
  destruct (crud.get_country_by_name db (CountryCreate.name d)) as [c0|];
    destruct (crud.bound db d); try discriminate; intros [= <- <-];
    (split; [reflexivity|]); [left; eauto | right; auto].
Qed.

(** Values that the engine and the driver take are upserted. *)
Lemma upsert_country_bound db d t :
  crud.bound db d = true -> exists r db', crud.upsert_country db d t = Return (r, db').
Proof.
  intros H. unfold crud.upsert_country. rewrite H.
  destruct (crud.get_country_by_name db (CountryCreate.name d)); eauto.
Qed.

Lemma upsert_country_session db d t r db' :
  crud.upsert_country db d t = Return (r, db') ->
  bind db' = bind db /\ committed db' = committed db
  /\ app_status (pending db') = app_status (pending db).
Proof.
  intros H. apply upsert_country_inv in H
    as (_ & [(c0 & _ & _ & ->)|(_ & _ & ->)]); auto.
Qed.

Lemma payload_upsert db d t r db' :
  crud.upsert_country db d t = Return (r, db') -> payload r = d.
Proof.
  intros H. apply upsert_country_inv in H
    as (_ & [(c0 & _ & -> & _)|(_ & -> & _)]); now destruct d.
Qed.

Lemma find_updated (engine : Deployment) (target : string) d t c0 rows :
  lower engine (CountryCreate.name d) = target ->
  List.find (fun c => String.eqb (lower engine (Country.name c)) target) rows = Some c0 ->
  List.find (fun c => String.eqb (lower engine (Country.name c)) target)
            (map (fun c => if Country.id c =? Country.id c0
                           then crud.updated c d t else c) rows)
  = Some (crud.updated c0 d t).
Proof.
  intros Hn. induction rows as [|a rows IH]; simpl; [discriminate|].
  destruct (String.eqb_spec (lower engine (Country.name a)) target) as [E|E].
  - intros [= ->]. rewrite Z.eqb_refl. simpl. rewrite Hn. now rewrite String.eqb_refl.
  - intros Hf. destruct (Z.eqb_spec (Country.id a) (Country.id c0)) as [Eid|Eid].
    + simpl. rewrite Hn, String.eqb_refl. f_equal. now apply updated_same_key.
    + destruct (String.eqb_spec (lower engine (Country.name a)) target);
        [contradiction | now apply IH].
Qed.

(** After an upsert under a name on which the engine and Python agree, the
    name is found, and what is found is the row the upsert returned. *)
Lemma get_country_by_name_upsert db d t r db' n :
  crud.upsert_country db d t = Return (r, db') ->
  agree (bind db) (CountryCreate.name d) ->
  str_lower (bind db) n = str_lower (bind db) (CountryCreate.name d) ->
  crud.get_country_by_name db' n = Some r.
Proof.
  intros H Ha Hn. unfold agree in Ha.
  apply upsert_country_inv in H as (_ & [(c0 & Hf & -> & ->)|(Hf & Hr & ->)]);
    unfold crud.get_country_by_name in *; simpl; rewrite Hn.
  - now apply find_updated.
  - apply find_snoc; [exact Hf|]. rewrite Hr. simpl. rewrite Ha. apply String.eqb_refl.
Qed.

Lemma upsert_country_consistent db d t r db' :
  crud.upsert_country db d t = Return (r, db') ->
  agree (bind db) (CountryCreate.name d) ->
  consistent (bind db) (pending db) -> consistent (bind db') (pending db').
Proof.
  intros H Ha (Hid & Hname & Hnext). unfold agree in Ha.
  apply upsert_country_inv in H as (_ & [(c0 & Hf & _ & ->)|(Hf & Hr & ->)]);
    unfold crud.get_country_by_name in Hf; simpl.
  - apply find_some in Hf as [Hin Heq]. apply String.eqb_eq in Heq.
    assert (Hkey : forall c, In c (countries (pending db)) ->
              Country.id c = Country.id c0 -> c = c0).
    { intros c Hc E. eapply (unique_by Country.id); eauto. }
    split; [|split]; simpl.
    + rewrite map_map. erewrite map_ext; [exact Hid|].
      intros c. simpl. now destruct (Country.id c =? Country.id c0).
    + rewrite map_map. erewrite map_ext_in; [exact Hname|].
      intros c Hc. simpl. destruct (Z.eqb_spec (Country.id c) (Country.id c0)) as [E|E];
        [|reflexivity].
      rewrite (Hkey c Hc E). simpl. congruence.
    + apply List.Forall_forall. intros c Hc. apply in_map_iff in Hc as (c' & <- & Hc').
      rewrite List.Forall_forall in Hnext. specialize (Hnext c' Hc').
      now destruct (Country.id c' =? Country.id c0).
  - pose proof (find_none _ _ Hf) as Hnone. rewrite List.Forall_forall in Hnext.
    subst r. split; [|split]; simpl.
    + rewrite map_app. apply NoDup_snoc; [exact Hid|]. simpl.
      intros Hin. apply in_map_iff in Hin as (c & E & Hc).
      specialize (Hnext c Hc). lia.
    + rewrite map_app. apply NoDup_snoc; [exact Hname|]. simpl.
      intros Hin. apply in_map_iff in Hin as (c & E & Hc).
      specialize (Hnone c Hc). simpl in Hnone. rewrite E, Ha in Hnone.
      now rewrite String.eqb_refl in Hnone.
    + apply List.Forall_forall. intros c Hc. apply in_app_iff in Hc as [Hc|[<-|[]]].
      * specialize (Hnext c Hc). lia.
      * simpl. lia.
Qed.

Lemma delete_country_by_name_consistent db n :
  consistent (bind db) (pending db) ->
  consistent (bind db) (pending (snd (crud.delete_country_by_name db n))).
Proof.
  intros (Hid & Hname & Hnext). unfold crud.delete_country_by_name.
  destruct (crud.get_country_by_name db n) as [c0|]; simpl; [|now repeat split].
  repeat split; simpl; try now apply NoDup_map_filter.
  rewrite List.Forall_forall in *. intros c Hc. apply filter_In in Hc as [Hc _]. auto.
Qed.

Lemma update_app_status_consistent db t :
  consistent (bind db) (pending db) ->
  consistent (bind db) (pending (crud.update_app_status db t)).
Proof. intros H. exact H. Qed.

(** Where the engine lower-cases the names as Python does, two upserts
    under names that Python lower-cases to the same string leave one row
    under that name, holding the second payload under the key the first
    upsert returned, and the store stays consistent. *)
Lemma upsert_twice_one_row_where_lowers_agree (db db1 db2 : AsyncSession)
    (d1 d2 : CountryCreate.t) (t1 t2 : Time) (r1 r2 : Country.t) :
  consistent (bind db) (pending db) ->
  agree (bind db) (CountryCreate.name d1) -> agree (bind db) (CountryCreate.name d2) ->
  str_lower (bind db) (CountryCreate.name d1) = str_lower (bind db) (CountryCreate.name d2) ->
  crud.upsert_country db d1 t1 = Return (r1, db1) ->
  crud.upsert_country db1 d2 t2 = Return (r2, db2) ->
  consistent (bind db2) (pending db2)
  /\ List.filter (fun c => String.eqb (lower (bind db) (Country.name c))
                                      (str_lower (bind db) (CountryCreate.name d2)))
                 (countries (pending db2)) = [r2]
  /\ payload r2 = d2
  /\ Country.id r2 = Country.id r1.
Proof.
  intros Hc Ha1 Ha2 Hn H1 H2.
  destruct (upsert_country_session _ _ _ _ _ H1) as (Hb1 & _ & _).
  destruct (upsert_country_session _ _ _ _ _ H2) as (Hb2 & _ & _).
  assert (Hc1 : consistent (bind db1) (pending db1))
    by (eapply upsert_country_consistent; eauto).
  assert (Hc2 : consistent (bind db2) (pending db2)).
  { eapply upsert_country_consistent; eauto. now rewrite Hb1. }
  assert (Hf1 : crud.get_country_by_name db1 (CountryCreate.name d2) = Some r1).
  { eapply get_country_by_name_upsert; eauto. }
  assert (Hf2 : crud.get_country_by_name db2 (CountryCreate.name d2) = Some r2).
  { eapply get_country_by_name_upsert; eauto. now rewrite Hb1. }
  split; [exact Hc2|]. split; [|split].
  - unfold crud.get_country_by_name in Hf2. rewrite Hb2, Hb1 in Hf2.
    apply find_some in Hf2 as [Hin Heq]. apply String.eqb_eq in Heq. rewrite <- Heq.
    destruct Hc2 as (_ & Hname & _). rewrite Hb2, Hb1 in Hname.
    now apply (filter_unique (fun c => lower (bind db) (Country.name c))).
  - eapply payload_upsert; eauto.
  - apply upsert_country_inv in H2 as (_ & [(c0 & Hf & -> & _)|(Hf & _)]);
      [|congruence].
    rewrite Hf1 in Hf. now injection Hf as <-.
Qed.

Lemma three_rows_consistent :
  consistent (deployed NullsLowest) (pending (session NullsLowest three_rows)).
Proof.
  unfold consistent. simpl.
  repeat split; repeat constructor; simpl; intuition (discriminate || lia).
Qed.

Example upsert_wakanda_twice :
  exists r1 db1 r2 db2,
    crud.upsert_country (session NullsLowest three_rows)
      (create "Wakanda" 1000 (Some 0%Q)) 20 = Return (r1, db1)
    /\ crud.upsert_country db1 (create "WAKANDA" 2000 None) 30 = Return (r2, db2)
    /\ map Country.id (countries (pending db2)) = [1; 2; 3; 4]
    /\ payload r2 = create "WAKANDA" 2000 None
    /\ Country.id r2 = 4 /\ Country.id r1 = 4.
Proof. do 4 eexists. repeat split. Qed.

Example lower_aland :
  ascii_lower "Åland Islands" = "Åland islands"
  /\ latin_lower "Åland Islands" = "åland islands"
  /\ latin_lower "ÅLAND ISLANDS" = "åland islands".
Proof. repeat split. Qed.

(** C4, at an input where the code departs from it. The lookup of
    [upsert_country] compares what the engine makes of [lower(name)] with
    what Python makes of [name.lower()]. On SQLite, whose [lower()] leaves
    letters outside ASCII as they are, a name that starts with a capital
    A with ring is not found under itself: upserting it twice makes two
    rows, of keys 1 and 2, and no lookup by the name finds either. So do
    two refreshes on a source that lists the name. *)
Theorem upsert_twice_two_rows_where_lower_is_ascii :
  (exists r1 db1 r2 db2,
     crud.upsert_country (session_on sqlite []) (create "Åland Islands" 28000 None) 20
     = Return (r1, db1)
     /\ crud.upsert_country db1 (create "Åland Islands" 29000 (Some 0%Q)) 30
        = Return (r2, db2)
     /\ countries (pending db2) = [r1; r2]
     /\ Country.id r1 = 1 /\ Country.id r2 = 2
     /\ Country.name r1 = "Åland Islands" /\ Country.name r2 = "Åland Islands"
     /\ crud.get_country_by_name db2 "Åland Islands" = None
     /\ crud.get_country_by_name db2 "åland islands" = None)
  /\ (let w := world (services.Response 200 sample_rates)
                     (services.Response 200
                        [country "Åland Islands" 28000 (JArray [currency "EUR"])])
                     true in
      let refresh := request "POST" ["countries"; "refresh"] in
      let once := snd (routes.app sqlite project w (disk project) (store_of []) refresh) in
      let twice := snd (routes.app sqlite project w (disk project) once refresh) in
      map Country.id (countries once) = [1]
      /\ map Country.id (countries twice) = [1; 2]
      /\ map Country.name (countries twice) = ["Åland Islands"; "Åland Islands"]).
Proof.
  split; [do 4 eexists; repeat split | vm_compute; repeat split].
Qed.

(** ** The refresh cycle *)

(** *** Numbers *)



(** Every population of the column, times any multiplier, is within the
    range of a [float]. *)
Lemma BigInteger_in_float_range p : BigInteger p = true -> in_float_range (2000 * p) = true.
Proof.
  unfold BigInteger, in_float_range, overflows, Qle_bool, Qabs, inject_Z.
  cbn [Qnum Qden]. rewrite andb_true_iff, Z.leb_le, Z.ltb_lt, negb_true_iff, Z.leb_gt.
  intros [H1 H2].
  assert (Z.abs (2000 * p) <= 2000 * 2 ^ 63) by lia.
  assert (2000 * 2 ^ 63 < 2 ^ 1024 - 2 ^ 970) by (vm_compute; reflexivity).
  lia.
Qed.




Example truediv_examples :
  truediv 1000 (Float (Finite 3)) = Return (Finite (5864062014805333 # 17592186044416))
  /\ truediv 1000 (Int 3) = Return (Finite (5864062014805333 # 17592186044416))
  /\ truediv (2 ^ 53 + 1) (Int 1) = Return (Finite (inject_Z (2 ^ 53)))
  /\ truediv (3 * (2 ^ 53 + 1)) (Int 3) = Return (Finite (inject_Z (2 ^ 53)))
  /\ truediv (3 * (2 ^ 53 + 1)) (Float (Finite 3))
     = Return (Finite (inject_Z (2 ^ 53 + 2)))
  /\ truediv (2 ^ 1024) (Float (Finite 2)) = Raise OverflowError
  /\ truediv (2 ^ 1024) (Int 2) = Return (Finite (inject_Z (2 ^ 1023)))
  /\ truediv (2 ^ 1000) (Float (Finite (1 # 2 ^ 100))) = Return (Infinity false)
  /\ truediv 5 (Float (Infinity false)) = Return (Finite 0).
Proof. vm_compute. repeat split. Qed.

(** *** Estimation *)




(** What [schemas.validate] returns has the values it was given, the rate
    converted. *)
Lemma validate_inv url name capital region population code rate gdp flag d :
  validate url name capital region population code rate gdp flag = Return d ->
  CountryCreate.name d = name
  /\ CountryCreate.population d = population
  /\ CountryCreate.currency_code d = code
  /\ stored_rate rate (CountryCreate.exchange_rate d)
  /\ CountryCreate.estimated_gdp d = gdp.
Proof.
  unfold validate, stored_rate.
  destruct rate as [x|]; [destruct (to_float x) as [f|]|];
    (destruct flag as [u|]; [destruct (url u)|]); try discriminate;
    intros [= <-]; simpl; eauto 10.
Qed.





Example estimate_examples :
  services.estimate sample_rates 1000 JNull 7 = Return (None, None, Some (Finite 0), false)
  /\ services.estimate ∅ 1000 (JString "XYZ") 7 = Return (Some "XYZ", None, None, false)
  /\ services.estimate sample_rates 1000 (JString "ZWL") 7
     = Return (Some "ZWL", Some (Int 0), Some (Finite 0), false)
  /\ services.estimate sample_rates 1000 (JString "NGN") 7
     = Return (Some "NGN", Some (Float (Finite 2)), Some (Finite (503500 # 1)), true)
  /\ services.estimate sample_rates 1 (JString "EUR") 0
     = Return (Some "EUR", Some (Float (Finite 3)),
               Some (Finite (5864062014805333 # 17592186044416)), true).
Proof. vm_compute. repeat split. Qed.

Example written_examples :
  let w := world (services.Response 200 sample_rates) (services.Response 200 []) true in
  option_map (fun r => (Country.currency_code r, Country.exchange_rate r,
                        Country.estimated_gdp r))
             (written w sample_rates (fresh (session NullsLowest []))
                      (country "Z" 1000 (JArray [currency "USD"])))
  = Some (Some "USD", Some (Finite 1), Some (Finite (1007000 # 1)))
  /\ written w sample_rates (fresh (session NullsLowest []))
             (country "Z" (2 ^ 63) (JArray [currency "USD"])) = None
  /\ written w sample_rates (fresh (session NullsLowest []))
             (flagged "Z" "flag.png") = None
  /\ option_map Country.flag_url
                (written w sample_rates (fresh (session NullsLowest []))
                         (flagged "Z" "https://flagcdn.com/z.svg"))
     = Some (Some "https://flagcdn.com/z.svg")
  /\ written w sample_rates (fresh (session_on sqlite []))
             (flagged "Z" "https://flagcdn.com/z.svg") = None.
Proof. vm_compute. repeat split. Qed.





Example first_currency_without_code_written :
  option_map (fun r => (Country.currency_code r, Country.exchange_rate r,
                        Country.estimated_gdp r))
    (written (world (services.Response 200 sample_rates) (services.Response 200 []) true)
       sample_rates (fresh (session NullsLowest three_rows))
       (country "Odd" 10 (JArray [JString "USD"; currency "USD"])))
  = Some (None, None, Some (Finite 0)).
Proof. reflexivity. Qed.

(** *** Skipped records *)

Lemma process_country_dropped w rates c cd :
  services.country_data.name cd = None \/ services.country_data.name cd = Some ""
  \/ services.country_data.population cd = None ->
  services.process_country w rates c cd = Return c.
Proof.
  unfold services.process_country. intros [H|[H|H]]; rewrite H.
  - reflexivity.
  - now destruct (services.country_data.population cd).
  - now destruct (services.country_data.name cd).
Qed.

(** C7. A record without a name, with an empty name or without a population
    is passed over: its turn of the loop leaves the cycle as it was and
    raises nothing, the loop over a list and the whole cycle on an answer end
    as they do with the record taken out. *)
Theorem record_without_name_or_population_dropped (w : services.World)
    (cd : services.country_data.t) :
  services.country_data.name cd = None \/ services.country_data.name cd = Some ""
  \/ services.country_data.population cd = None ->
  (forall rates c, services.process_country w rates c cd = Return c)
  /\ (forall rates before after c,
        services.process_countries w rates (before ++ cd :: after) c
        = services.process_countries w rates (before ++ after) c)
  /\ (forall status_code before after db,
        services.process_and_cache_countries
          (answering w status_code (before ++ cd :: after)) db
        = services.process_and_cache_countries
            (answering w status_code (before ++ after)) db).
Proof.
  intros Hcd.
  assert (Hloop : forall w0 rates before after c,
            services.process_countries w0 rates (before ++ cd :: after) c
            = services.process_countries w0 rates (before ++ after) c).
  { intros w0 rates before after. induction before as [|x before IH]; intros c; simpl.
    - now rewrite (process_country_dropped w0 rates c cd Hcd).
    - destruct (services.process_country w0 rates c x); [apply IH | reflexivity]. }
  split; [|split].
  - intros rates c. now apply process_country_dropped.
  - intros. apply Hloop.
  - intros status_code before after db.
    unfold services.process_and_cache_countries, services.fetch_countries_data,
      services.fetch_exchange_rates, services.generate_summary_image. simpl.
    destruct (services.rates_response w) as [sc rates|d];
      [destruct (services.is_success sc)|]; destruct (services.is_success status_code);
      simpl; try reflexivity.
    enough (H : forall l c,
              services.process_countries (answering w status_code (before ++ cd :: after))
                rates l c
              = services.process_countries (answering w status_code (before ++ after))
                  rates l c) by now rewrite H, Hloop.
    induction l as [|x l IH]; intros c; simpl; [reflexivity|].
    change (services.process_country (answering w status_code (before ++ cd :: after))
              rates c x)
      with (services.process_country (answering w status_code (before ++ after))
              rates c x).
    destruct (services.process_country _ rates c x); [apply IH | reflexivity].
Qed.

Lemma nameless_record_dropped :
  services.process_countries
    (world (services.Response 200 sample_rates) (services.Response 200 []) true)
    sample_rates ([wakanda] ++ nameless :: [country "Nigeria" 200 (JArray [currency "NGN"])])
    (fresh (session NullsLowest []))
  = services.process_countries
      (world (services.Response 200 sample_rates) (services.Response 200 []) true)
      sample_rates ([wakanda] ++ [country "Nigeria" 200 (JArray [currency "NGN"])])
      (fresh (session NullsLowest [])).
Proof.
  apply (record_without_name_or_population_dropped
           (world (services.Response 200 sample_rates) (services.Response 200 []) true)
           nameless).
  left. reflexivity.
Defined.

(** *** One turn of the loop *)

(** One turn of the loop that does not raise: the record is passed over, or
    one payload under the name of the record is upserted. *)
Lemma process_country_inv w rates c cd c' :
  services.process_country w rates c cd = Return c' ->
  (kept cd = false /\ c' = c)
  \/ (kept cd = true
      /\ exists d r, services.country_data.name cd = Some (CountryCreate.name d)
           /\ crud.upsert_country (services.db c) d
                (services.db_now w (services.writes c)) = Return (r, services.db c')).
Proof.
  unfold services.process_country, kept.
  destruct (services.country_data.name cd) as [n|];
    [destruct (services.country_data.population cd) as [p|]|];
    try (intros [= <-]; now left).
  simpl. destruct (negb (n =? "")%string); [|intros [= <-]; now left].
  simpl. destruct (services.estimate _ _ _ _) as [[[[cc er] gdp] drawn]|]; [|discriminate].
  destruct (validate _ _ _ _ _ _ _ _ _) as [d|] eqn:Ev; [|discriminate].
  destruct (crud.upsert_country _ _ _) as [[r db']|] eqn:Eu; [|discriminate].
  intros [= <-]. right. split; [reflexivity|]. exists d, r. simpl.
  apply validate_inv in Ev as (-> & _). auto.
Qed.

Lemma truediv_raises a b e : truediv a b = Raise e -> internal e.
Proof.
  unfold truediv. destruct b as [z|[q|negative]].
  - destruct (z =? 0); [intros [= <-]; exact I|].
    destruct (to_double _); [discriminate | intros [= <-]; exact I].
  - destruct (to_double _); [|intros [= <-]; exact I].
    destruct (Qeq_bool q 0); [intros [= <-]; exact I | discriminate].
  - destruct (to_double _); [discriminate | intros [= <-]; exact I].
Qed.

Lemma estimate_raises rates p code bits e :
  services.estimate rates p code bits = Raise e -> internal e.
Proof.
  unfold services.estimate. destruct (truthy code); [|discriminate].
  destruct code as [|b|q|s|items|members]; try (intros [= <-]; exact I).
  destruct (rates !! s) as [r|]; [|discriminate].
  destruct (positive r); [|discriminate].
  destruct (truediv _ r) as [gdp|e0] eqn:E; [discriminate|].
  intros [= <-]. eapply truediv_raises; eauto.
Qed.

Lemma validate_raises url name capital region population code rate gdp flag e :
  validate url name capital region population code rate gdp flag = Raise e ->
  e = ValidationError.
Proof.
  unfold validate.
  destruct rate as [x|]; [destruct (to_float x)|];
    (destruct flag as [u|]; [destruct (url u)|]); try discriminate; now intros [= <-].
Qed.

Lemma upsert_country_raises db d t e :
  crud.upsert_country db d t = Raise e -> e = DBAPIError.
Proof.
  unfold crud.upsert_country.
  destruct (crud.get_country_by_name _ _), (crud.bound db d); try discriminate;
    now intros [= <-].
Qed.

(** Whatever a turn of the loop raises is answered by the handler for
    every other exception. *)
Lemma process_country_raises w rates c cd e :
  services.process_country w rates c cd = Raise e -> internal e.
Proof.
  unfold services.process_country.
  destruct (services.country_data.name cd);
    [destruct (services.country_data.population cd)|]; try discriminate.
  destruct (negb _); [discriminate|].
  destruct (services.estimate _ _ _ _) as [[[[cc er] gdp] drawn]|e0] eqn:Ee.
  - destruct (validate _ _ _ _ _ _ _ _ _) as [d|e1] eqn:Ev.
    + destruct (crud.upsert_country _ _ _) as [[r db']|e2] eqn:Eu; [discriminate|].
      intros [= <-]. now rewrite (upsert_country_raises _ _ _ _ Eu).
    + intros [= <-]. now rewrite (validate_raises _ _ _ _ _ _ _ _ _ _ Ev).
  - intros [= <-]. eapply estimate_raises; eauto.
Qed.

Lemma process_countries_raises w rates l : forall c c' e,
  services.process_countries w rates l c = (c', Some e) -> internal e.
Proof.
  induction l as [|cd l IH]; simpl; intros c c' e; [discriminate|].
  destruct (services.process_country w rates c cd) as [c1|e1] eqn:E.
  - apply IH.
  - intros [= <- <-]. eapply process_country_raises; eauto.
Qed.

Lemma internal_is_500 e :
  internal e ->
  main.exception_handler e
  = {| main.status_code := 500;
       main.content := main.Error "Internal server error" None |}.
Proof. destruct e; simpl; tauto. Qed.

(** *** Timestamps *)







(** *** Failures *)

(** A cycle whose fetches fail hands the session back as it got it. *)
Lemma failed_fetch_writes_nothing w db e :
  services.gather (services.countries_fails_first w)
    (services.fetch_exchange_rates w) (services.fetch_countries_data w) = Raise e ->
  services.process_and_cache_countries w db = (Raise e, db).
Proof. intros H. unfold services.process_and_cache_countries. now rewrite H. Qed.

(** A fetch that fails in transport is answered with 503. *)
Lemma request_error_is_503 w db details :
  services.rates_response w = services.RequestError details ->
  (exists countries, services.fetch_countries_data w = Return countries) ->
  main.refresh_countries_data w db
  = (main.service_unavailable_handler "Exchange Rates API" details, close db).
Proof.
  intros H [l Hl]. unfold main.refresh_countries_data.
  rewrite (failed_fetch_writes_nothing w db
             (ServiceUnavailableException "Exchange Rates API" details)); [reflexivity|].
  unfold services.fetch_exchange_rates. now rewrite H, Hl.
Qed.

(** C2, at the input where the code departs from it. The exchange-rate
    source answers with status 500: [raise_for_status] raises
    [HTTPStatusError], which [fetch_exchange_rates] does not turn into
    [ServiceUnavailableException]; the cycle stops before any write, and the
    caller is answered 500 "Internal server error" where the claim has 503. *)
Theorem refresh_status_error_is_500 :
  main.refresh_countries_data
    (world (services.Response 500 ∅) (services.Response 200 [wakanda]) true)
    (session NullsLowest three_rows)
  = ({| main.status_code := 500;
        main.content := main.Error "Internal server error" None |},
     session NullsLowest three_rows).
Proof. reflexivity. Qed.

(** C6, as the code has it. When the image cannot be saved after the commit,
    what the cycle wrote stays committed, and the exception leaves the
    endpoint: the caller is answered 500 "Internal server error". *)
Theorem image_failure_after_commit (w : services.World) (db : AsyncSession)
    (rates : gmap string number) (countries : list services.country_data.t)
    (c : services.Cycle) :
  services.fetch_exchange_rates w = Return rates ->
  services.fetch_countries_data w = Return countries ->
  services.process_countries w rates countries (fresh db) = (c, None) ->
  services.image_saved w = false ->
  fst (main.refresh_countries_data w db)
  = {| main.status_code := 500;
       main.content := main.Error "Internal server error" None |}
  /\ committed (snd (main.refresh_countries_data w db))
     = pending (crud.update_app_status (services.db c) (services.utc_now w))
  /\ pending (snd (main.refresh_countries_data w db))
     = pending (crud.update_app_status (services.db c) (services.utc_now w)).
Proof.
  intros Hr Hc Hl Hi.
  unfold main.refresh_countries_data, services.process_and_cache_countries,
    services.generate_summary_image.
  rewrite Hr, Hc. simpl. unfold fresh in Hl. rewrite Hl, Hi. simpl. auto.
Qed.

Lemma image_failure_wakanda :
  fst (main.refresh_countries_data
         (world (services.Response 200 sample_rates) (services.Response 200 [wakanda])
                false)
         (session NullsLowest []))
  = {| main.status_code := 500;
       main.content := main.Error "Internal server error" None |}.
Proof.
  refine (proj1 (image_failure_after_commit
                   (world (services.Response 200 sample_rates)
                          (services.Response 200 [wakanda]) false)
                   (session NullsLowest []) sample_rates [wakanda] _
                   eq_refl eq_refl eq_refl eq_refl)).
Defined.

(** C6, as stated, fails: with both sources up and the image not saved, the
    row of the cycle is committed and the caller is answered 500, not the
    success result. *)
Lemma image_failure_is_not_success :
  let answer :=
    main.refresh_countries_data
      (world (services.Response 200 sample_rates) (services.Response 200 [wakanda]) false)
      (session NullsLowest []) in
  map Country.name (countries (committed (snd answer))) = ["Wakanda"]
  /\ main.status_code (fst answer) = 500
  /\ main.content (fst answer) <> main.RefreshResult "success" 100.
Proof. cbv zeta. split; [reflexivity|]. split; [reflexivity | discriminate]. Qed.

(** *** What the loop keeps *)

Lemma process_country_session w rates c cd c' :
  services.process_country w rates c cd = Return c' ->
  bind (services.db c') = bind (services.db c)
  /\ committed (services.db c') = committed (services.db c)
  /\ app_status (pending (services.db c')) = app_status (pending (services.db c)).
Proof.
  intros H. apply process_country_inv in H as [[_ ->]|(_ & d & r & _ & H)]; [auto|].
  eapply upsert_country_session; eauto.
Qed.

(** Until the commit the loop writes to the transaction only, and to the
    table of countries only. *)
Lemma process_countries_session w rates l : forall c c' o,
  services.process_countries w rates l c = (c', o) ->
  bind (services.db c') = bind (services.db c)
  /\ committed (services.db c') = committed (services.db c)
  /\ app_status (pending (services.db c')) = app_status (pending (services.db c)).
Proof.
  induction l as [|cd l IH]; simpl; intros c c' o.
  - now intros [= <- <-].
  - destruct (services.process_country w rates c cd) as [c1|e] eqn:E.
    + intros H. destruct (IH _ _ _ H) as (H1 & H2 & H3).
      destruct (process_country_session _ _ _ _ _ E) as (H4 & H5 & H6).
      repeat split; congruence.
    + now intros [= <- <-].
Qed.

Lemma process_countries_committed w rates l c c' o :
  services.process_countries w rates l c = (c', o) ->
  committed (services.db c') = committed (services.db c).
Proof. intros H. now apply process_countries_session in H. Qed.

Lemma process_countries_app_status w rates l c c' o :
  services.process_countries w rates l c = (c', o) ->
  app_status (pending (services.db c')) = app_status (pending (services.db c)).
Proof. intros H. now apply process_countries_session in H. Qed.

(** ** Further properties of the query layer *)

Lemma filter_filter {A : Type} (p q : A -> bool) l :
  List.filter q (List.filter p l) = List.filter (fun x => p x && q x) l.
Proof.
  induction l as [|a l IH]; simpl; [reflexivity|].
  destruct (p a); simpl; [destruct (q a)|]; now rewrite IH.
Qed.

Lemma filter_true {A : Type} (l : list A) : List.filter (fun _ => true) l = l.
Proof. induction l; simpl; congruence. Qed.

Lemma sort_not_gdp_desc {A : Type} (s : string) (x y : A) :
  s <> "gdp_desc" ->
  match s with
  | "gdp_desc" => x
  | _ => y
  end = y.
Proof.
  intros H.
  repeat (match goal with
          | |- match ?v with _ => _ end = _ => destruct v
          end; try reflexivity).
  now contradiction H.
Qed.

(** [get_countries] is a filter, then a sort, then a page. *)
Lemma get_countries_steps db region currency sort skip limit :
  crud.get_countries db region currency sort skip limit
  = firstn limit
      (skipn skip
         ((if gdp_desc_requested sort
           then order_by (fun a b => desc (null_rank db) (Country.estimated_gdp a)
                                          (Country.estimated_gdp b))
           else order_by (fun a b => String.leb (Country.name a) (Country.name b)))
            (visited db region currency sort
               (List.filter (selected region currency) (countries (pending db)))))).
Proof.
  unfold crud.get_countries.
  assert (Hf : match currency with
               | Some cur =>
                   if truthy_str currency
                   then List.filter (fun c => col_eq (Country.currency_code c) cur)
                          match region with
                          | Some r =>
                              if truthy_str region
                              then List.filter (fun c => col_eq (Country.region c) r)
                                     (countries (pending db))
                              else countries (pending db)
                          | None => countries (pending db)
                          end
                   else match region with
                        | Some r =>
                            if truthy_str region
                            then List.filter (fun c => col_eq (Country.region c) r)
                                   (countries (pending db))
                            else countries (pending db)
                        | None => countries (pending db)
                        end
               | None => match region with
                         | Some r =>
                             if truthy_str region
                             then List.filter (fun c => col_eq (Country.region c) r)
                                    (countries (pending db))
                             else countries (pending db)
                         | None => countries (pending db)
                         end
               end
               = List.filter (selected region currency) (countries (pending db))).
  { unfold selected, wanted, truthy_str, col_eq.
    destruct region as [r|], currency as [cur|];
      try destruct (String.eqb r ""); try destruct (String.eqb cur ""); simpl;
      rewrite ?filter_filter, ?filter_true; try reflexivity.
    - apply filter_ext. intros a. now rewrite andb_true_r.
    - apply filter_ext. intros a. now rewrite andb_true_r. }
  cbv zeta. rewrite Hf.
  destruct sort as [s|]; [|reflexivity]. simpl.
  destruct (String.eqb_spec s "gdp_desc") as [->|Hne]; [reflexivity|].
  now rewrite sort_not_gdp_desc.
Qed.

Lemma sorted_listing_perm db (region currency sort : option string) rows :
  Permutation
    ((if gdp_desc_requested sort
      then order_by (fun a b => desc (null_rank db) (Country.estimated_gdp a)
                                     (Country.estimated_gdp b))
      else order_by (fun a b => String.leb (Country.name a) (Country.name b)))
       (visited db region currency sort rows))
    rows.
Proof.
  etransitivity; [|apply visited_perm].
  destruct (gdp_desc_requested sort); apply order_by_perm.
Qed.

Lemma firstn_short {A : Type} n : forall l : list A,
  (length l <= n)%nat -> firstn n l = l.
Proof.
  induction n as [|n IH]; intros [|a l]; simpl; intros H; try reflexivity; try lia.
  f_equal. apply IH. lia.
Qed.

Lemma filter_length_le {A : Type} (p : A -> bool) l :
  (length (List.filter p l) <= length l)%nat.
Proof. induction l as [|a l IH]; simpl; [lia|]. destruct (p a); simpl; lia. Qed.

Lemma string_compare_trans a : forall b c,
  String.compare a b <> Gt -> String.compare b c <> Gt -> String.compare a c <> Gt.
Proof.
  induction a as [|x a IH]; intros [|y b] [|z c]; simpl; try congruence.
  unfold Ascii.compare.
  destruct (N.compare_spec (N_of_ascii x) (N_of_ascii y)),
    (N.compare_spec (N_of_ascii y) (N_of_ascii z)),
    (N.compare_spec (N_of_ascii x) (N_of_ascii z));
    try congruence; try lia; eauto.
Qed.

Lemma string_leb_trans a b c :
  String.leb a b = true -> String.leb b c = true -> String.leb a c = true.
Proof.
  unfold String.leb. intros Hab Hbc.
  pose proof (string_compare_trans a b c) as H.
  destruct (String.compare a b), (String.compare b c), (String.compare a c);
    try reflexivity; try discriminate; exfalso; apply H; congruence.
Qed.

Lemma string_leb_other a b : String.leb a b = false -> String.leb b a = true.
Proof. intros H. destruct (String.leb_total a b); congruence. Qed.

(** X1. With no offset and a limit that the table does not exceed,
    [get_countries] returns exactly the rows that pass the two filters, each
    as often as the table holds it, whatever the sort; a filter that is
    absent or empty lets every row pass, and a NULL column passes no filter
    with a value. *)
Theorem get_countries_selects (db : AsyncSession) (region currency sort : option string)
    (limit : nat) :
  (crud.get_countries_count db <= limit)%nat ->
  Permutation (crud.get_countries db region currency sort 0 limit)
              (List.filter (selected region currency) (countries (pending db))).
Proof.
  intros Hlimit. rewrite get_countries_steps. simpl skipn.
  rewrite firstn_short.
  - apply sorted_listing_perm.
  - etransitivity; [|exact Hlimit].
    etransitivity; [|apply (filter_length_le (selected region currency))].
    apply Nat.eq_le_incl, Permutation_length, sorted_listing_perm.
Qed.

Lemma get_countries_selects_africa :
  Permutation
    (crud.get_countries (session NullsLowest three_rows) (Some "Africa") (Some "")
                        None 0 3)
    three_rows.
Proof.
  apply (get_countries_selects (session NullsLowest three_rows) (Some "Africa")
           (Some "") None 3).
  unfold crud.get_countries_count. simpl. lia.
Defined.

(** X2. Whenever [sort] is not exactly "gdp_desc" (absent, empty, or any
    other word) the listing is in ascending order of name, on every page
    and under every filter. *)
Theorem get_countries_name_order (db : AsyncSession)
    (region currency sort : option string) (skip limit : nat) :
  sort <> Some "gdp_desc" ->
  name_ascending (crud.get_countries db region currency sort skip limit).
Proof.
  intros Hsort. rewrite get_countries_steps.
  assert (Hreq : gdp_desc_requested sort = false).
  { destruct sort as [s|]; [|reflexivity]. simpl.
    destruct (String.eqb_spec s "gdp_desc"); congruence. }
  rewrite Hreq. intros i j ci cj Hij Hi Hj.
  exact (sorted_nth _ _
           (sorted_firstn _ limit _
              (sorted_skipn _ skip _
                 (order_by_sorted
                    (fun a b => String.leb (Country.name a) (Country.name b))
                    (fun x y => string_leb_other _ _)
                    (fun x y z => string_leb_trans _ _ _) _)))
           i j ci cj Hij Hi Hj).
Qed.

Lemma get_countries_name_order_unknown_sort :
  name_ascending
    (crud.get_countries (session NullsLowest three_rows) None None unknown_sort 0 100).
Proof.
  apply (get_countries_name_order (session NullsLowest three_rows) None None
           unknown_sort 0 100).
  discriminate.
Defined.

Lemma filter_perm_length {A : Type} (p : A -> bool) l l' :
  Permutation l l' -> length (List.filter p l) = length (List.filter p l').
Proof.
  induction 1 as [|x l l' _ IH|x y l|l l' l'' _ IH1 _ IH2]; simpl.
  - reflexivity.
  - destruct (p x); simpl; congruence.
  - destruct (p x), (p y); reflexivity.
  - congruence.
Qed.

Lemma In_nth_firstn {A : Type} (x : A) n : forall l,
  In x (firstn n l) -> exists i, (i < n)%nat /\ nth_error l i = Some x.
Proof.
  induction n as [|n IH]; intros [|a l]; simpl; try tauto.
  intros [->|H].
  - exists 0%nat. split; [lia | reflexivity].
  - destruct (IH l H) as (i & Hi & Hx). exists (S i). split; [lia | exact Hx].
Qed.

(** Once a listing in descending GDP order with NULL lowest reaches a row
    without a value, no row after it has one. *)
Lemma no_value_after_null l :
  StronglySorted
    (precedes (fun a b => desc NullsLowest (Country.estimated_gdp a)
                               (Country.estimated_gdp b))) l ->
  forall i r, nth_error l i = Some r -> valued r = false ->
    List.filter valued (skipn i l) = [].
Proof.
  induction 1 as [|a l Hs IH Ha]; intros i r Hi Hr.
  - now destruct i.
  - destruct i as [|i]; simpl in *.
    + injection Hi as ->. unfold valued in Hr.
      destruct (Country.estimated_gdp r) eqn:E; [discriminate|]. unfold valued at 1.
      rewrite E. clear -Ha E. induction Ha as [|x l Hx _ IH]; simpl; [reflexivity|].
      unfold precedes, desc, asc in Hx. rewrite E in Hx. unfold valued at 1.
      destruct (Country.estimated_gdp x); [discriminate | exact IH].
    + now apply (IH i r).
Qed.

Lemma top_listing_perm db :
  Permutation
    (order_by (fun a b => desc (null_rank db) (Country.estimated_gdp a)
                               (Country.estimated_gdp b))
              (visited db None None (Some "gdp_desc") (countries (pending db))))
    (countries (pending db)).
Proof. etransitivity; [apply order_by_perm | apply visited_perm]. Qed.

(** X4. [get_top_gdp_countries] returns as many rows as asked for, or the
    whole table when it is smaller, and every row it returns is a row of the
    table. *)
Theorem get_top_gdp_countries_length (db : AsyncSession) (n : nat) :
  length (crud.get_top_gdp_countries db n) = Nat.min n (crud.get_countries_count db)
  /\ forall r, In r (crud.get_top_gdp_countries db n) -> In r (countries (pending db)).
Proof.
  unfold crud.get_top_gdp_countries, crud.get_countries_count. split.
  - rewrite length_firstn. f_equal. apply Permutation_length, top_listing_perm.
  - intros r Hr. apply In_firstn in Hr.
    eapply Permutation_in; [apply top_listing_perm | exact Hr].
Qed.

(** X5. On an engine that ranks NULL lowest, when at least [n] rows of the
    table have an estimated GDP every row of the top [n] has one: a row
    without a value enters the top only for want of rows with one. *)
Theorem get_top_gdp_countries_valued (db : AsyncSession) (n : nat) :
  null_rank db = NullsLowest ->
  (n <= length (List.filter valued (countries (pending db))))%nat ->
  forall r, In r (crud.get_top_gdp_countries db n) -> valued r = true.
Proof.
  intros Hrank Hn r Hr. unfold crud.get_top_gdp_countries in Hr.
  pose proof (top_listing_perm db) as Hperm. rewrite Hrank in Hr, Hperm.
  set (before := fun a b : Country.t =>
                   desc NullsLowest (Country.estimated_gdp a) (Country.estimated_gdp b))
    in *.
  set (l := order_by before
              (visited db None None (Some "gdp_desc") (countries (pending db)))) in *.
  destruct (valued r) eqn:Hv; [reflexivity|]. exfalso.
  apply In_nth_firstn in Hr as (i & Hi & Hnth).
  assert (Hsorted : StronglySorted (precedes before) l).
  { apply order_by_sorted.
    - intros x y. apply desc_total.
    - intros x y z. apply desc_trans. }
  pose proof (no_value_after_null l Hsorted i r Hnth Hv) as Hafter.
  assert (Hcount : length (List.filter valued l)
                   = length (List.filter valued (countries (pending db))))
    by apply filter_perm_length, Hperm.
  rewrite <- (firstn_skipn i l), List.filter_app, Hafter, app_nil_r in Hcount.
  pose proof (filter_length_le valued (firstn i l)) as H1.
  pose proof (firstn_le_length i l) as H2. lia.
Qed.

Lemma get_top_gdp_countries_valued_two :
  Forall (fun r => valued r = true)
         (crud.get_top_gdp_countries (session NullsLowest three_rows) 2).
Proof.
  apply List.Forall_forall.
  apply (get_top_gdp_countries_valued (session NullsLowest three_rows) 2).
  - reflexivity.
  - simpl. lia.
Defined.

(** ** Further properties of the store *)

Lemma upsert_country_frame db d t r db' n :
  List.NoDup (map Country.id (countries (pending db))) ->
  str_lower (bind db) n <> str_lower (bind db) (CountryCreate.name d) ->
  str_lower (bind db) n <> lower (bind db) (CountryCreate.name d) ->
  crud.upsert_country db d t = Return (r, db') ->
  crud.get_country_by_name db' n = crud.get_country_by_name db n.
Proof.
  intros Hid Hn1 Hn2 H.
  apply upsert_country_inv in H as (_ & [(c0 & Hf & _ & ->)|(Hf & -> & ->)]);
    unfold crud.get_country_by_name in *; simpl.
  - apply find_some in Hf as [Hin Heq]. apply String.eqb_eq in Heq.
    apply find_map_fixed. intros a Ha.
    destruct (Z.eqb_spec (Country.id a) (Country.id c0)) as [E|E]; [|tauto].
    assert (a = c0) as -> by (eapply (unique_by Country.id); eauto).
    simpl. rewrite Heq.
    destruct (String.eqb_spec (str_lower (bind db) (CountryCreate.name d))
                              (str_lower (bind db) n)) as [E'|E'];
      [now symmetry in E'|].
    destruct (String.eqb_spec (lower (bind db) (CountryCreate.name d))
                              (str_lower (bind db) n)) as [E''|E''];
      [now symmetry in E'' | split; [discriminate | reflexivity]].
  - apply find_snoc_miss. simpl.
    destruct (String.eqb_spec (lower (bind db) (CountryCreate.name d))
                              (str_lower (bind db) n)) as [E'|E'];
      [now symmetry in E' | reflexivity].
Qed.

(** X6. On a consistent store an upsert is invisible under every other
    name: a lookup by a name that Python lower-cases to something else than
    it does the name upserted, and than the engine does, finds after the
    upsert what it found before. *)
Theorem upsert_country_other_names (db db' : AsyncSession) (d : CountryCreate.t)
    (t : Time) (r : Country.t) (n : string) :
  consistent (bind db) (pending db) ->
  str_lower (bind db) n <> str_lower (bind db) (CountryCreate.name d) ->
  str_lower (bind db) n <> lower (bind db) (CountryCreate.name d) ->
  crud.upsert_country db d t = Return (r, db') ->
  crud.get_country_by_name db' n = crud.get_country_by_name db n.
Proof. intros (Hid & _ & _) Hn1 Hn2 H. eapply upsert_country_frame; eauto. Qed.

Lemma upsert_country_other_names_ghana :
  exists r db',
    crud.upsert_country (session_on sqlite three_rows) (create "NIGÉRIA" 7 None) 50
    = Return (r, db')
    /\ crud.get_country_by_name db' "ghana"
       = crud.get_country_by_name (session_on sqlite three_rows) "ghana".
Proof.
  do 2 eexists. split; [reflexivity|].
  eapply (upsert_country_other_names (session_on sqlite three_rows) _
            (create "NIGÉRIA" 7 None) 50 _ "ghana").
  - unfold consistent. simpl.
    repeat split; repeat constructor; simpl; intuition (discriminate || lia).
  - discriminate.
  - discriminate.
  - reflexivity.
Defined.

Lemma delete_country_by_name_removes (db : AsyncSession) (n : string) (c : Country.t) :
  consistent (bind db) (pending db) ->
  crud.get_country_by_name db n = Some c ->
  let after := snd (crud.delete_country_by_name db n) in
  fst (crud.delete_country_by_name db n) = Some c
  /\ committed after = pending after
  /\ (forall n', str_lower (bind db) n' = str_lower (bind db) n ->
        crud.get_country_by_name after n' = None)
  /\ (forall n', str_lower (bind db) n' <> str_lower (bind db) n ->
        crud.get_country_by_name after n' = crud.get_country_by_name db n')
  /\ S (crud.get_countries_count after) = crud.get_countries_count db.
Proof.
  intros (Hid & Hname & _) Hf. unfold crud.delete_country_by_name. rewrite Hf.
  unfold crud.get_country_by_name, crud.get_countries_count in *. simpl.
  apply find_some in Hf as [Hin Heq]. apply String.eqb_eq in Heq.
  split; [reflexivity|]. split; [reflexivity|]. split; [|split].
  - intros n' Hn'. apply find_nowhere. intros a Ha.
    apply filter_In in Ha as [Ha Hq].
    destruct (String.eqb_spec (lower (bind db) (Country.name a))
                              (str_lower (bind db) n')) as [E|E];
      [|reflexivity].
    assert (a = c) as ->.
    { eapply (unique_by (fun c => lower (bind db) (Country.name c))); eauto.
      simpl. congruence. }
    now rewrite Z.eqb_refl in Hq.
  - intros n' Hn'. apply find_filter_keep. intros a Ha Hp.
    apply String.eqb_eq in Hp.
    destruct (Z.eqb_spec (Country.id a) (Country.id c)) as [E|E]; [|reflexivity].
    assert (a = c) as -> by (eapply (unique_by Country.id); eauto). congruence.
  - now apply filter_out_key.
Qed.

(** X7. On a consistent store, deleting a name that is found returns the
    stored row and commits; after it no name that Python lower-cases as it
    does the name deleted is found, every other name is found as before, and
    the table is one row shorter. *)
Theorem delete_country_by_name_found (db : AsyncSession) (n : string) (c : Country.t) :
  consistent (bind db) (pending db) ->
  crud.get_country_by_name db n = Some c ->
  let after := snd (crud.delete_country_by_name db n) in
  fst (crud.delete_country_by_name db n) = Some c
  /\ committed after = pending after
  /\ (forall n', str_lower (bind db) n' = str_lower (bind db) n ->
        crud.get_country_by_name after n' = None)
  /\ (forall n', str_lower (bind db) n' <> str_lower (bind db) n ->
        crud.get_country_by_name after n' = crud.get_country_by_name db n')
  /\ S (crud.get_countries_count after) = crud.get_countries_count db.
Proof. intros Hc Hf. now apply delete_country_by_name_removes. Qed.

Lemma delete_country_by_name_found_nigeria :
  crud.get_country_by_name
    (snd (crud.delete_country_by_name (session NullsLowest three_rows) "NIGERIA"))
    "nigeria" = None.
Proof.
  refine (proj1 (proj2 (proj2
    (delete_country_by_name_found (session NullsLowest three_rows) "NIGERIA"
       (row 1 "Nigeria" (Some (5 # 1)) 10) _ eq_refl))) "nigeria" eq_refl).
  unfold consistent. simpl.
  repeat split; repeat constructor; simpl; intuition (discriminate || lia).
Defined.

(** X8. On a consistent store, upserting a name that is not stored and on
    which the engine and Python agree, and then deleting it under any name
    that Python lower-cases the same, gives back the inserted row and leaves
    the table and the status row as they were before the upsert. *)
Theorem upsert_then_delete (db db' : AsyncSession) (d : CountryCreate.t) (t : Time)
    (r : Country.t) (n : string) :
  consistent (bind db) (pending db) ->
  agree (bind db) (CountryCreate.name d) ->
  crud.get_country_by_name db (CountryCreate.name d) = None ->
  str_lower (bind db) n = str_lower (bind db) (CountryCreate.name d) ->
  crud.upsert_country db d t = Return (r, db') ->
  let deleted := crud.delete_country_by_name db' n in
  fst deleted = Some r
  /\ countries (pending (snd deleted)) = countries (pending db)
  /\ app_status (pending (snd deleted)) = app_status (pending db).
Proof.
  intros (_ & _ & Hnext) Ha Hf Hn H deleted.
  pose proof (get_country_by_name_upsert db d t r db' n H Ha Hn) as Hfound.
  unfold deleted, crud.delete_country_by_name.
  rewrite Hfound. simpl. split; [reflexivity|].
  apply upsert_country_inv in H as (_ & [(c0 & Hf' & _)|(_ & Hr & ->)]); [congruence|].
  simpl. split; [|reflexivity].
  rewrite List.filter_app. simpl. rewrite Z.eqb_refl. simpl.
  rewrite app_nil_r. subst r. now apply filter_out_new_key.
Qed.

Lemma upsert_then_delete_wakanda :
  exists r db',
    crud.upsert_country (session NullsLowest three_rows) (create "Wakanda" 1000 None) 20
    = Return (r, db')
    /\ fst (crud.delete_country_by_name db' "WAKANDA") = Some r
    /\ countries (pending (snd (crud.delete_country_by_name db' "WAKANDA"))) = three_rows.
Proof.
  do 2 eexists. split; [reflexivity|].
  destruct (upsert_then_delete (session NullsLowest three_rows) _
              (create "Wakanda" 1000 None) 20 _ "WAKANDA"
              three_rows_consistent eq_refl eq_refl eq_refl eq_refl) as (H1 & H2 & _).
  split; [exact H1 | exact H2].
Defined.

(** ** Further properties of the refresh cycle *)

Lemma get_country_by_name_same_rows db1 db2 n :
  bind db1 = bind db2 ->
  countries (pending db1) = countries (pending db2) ->
  crud.get_country_by_name db1 n = crud.get_country_by_name db2 n.
Proof. unfold crud.get_country_by_name. now intros -> ->. Qed.

Lemma process_country_consistent w rates c cd c' :
  agree_on (bind (services.db c)) [cd] ->
  services.process_country w rates c cd = Return c' ->
  consistent (bind (services.db c)) (pending (services.db c)) ->
  consistent (bind (services.db c')) (pending (services.db c')).
Proof.
  intros Ha H Hc. apply process_country_inv in H as [[_ ->]|(Hk & d & r & Hd & H)];
    [exact Hc|].
  eapply upsert_country_consistent; eauto.
  apply (Ha cd); [now left | exact Hk | exact Hd].
Qed.

Lemma agree_on_cons engine cd l :
  agree_on engine (cd :: l) -> agree_on engine [cd] /\ agree_on engine l.
Proof.
  intros H. split; intros cd' n Hin; apply H; [destruct Hin as [->|[]]; now left|].
  now right.
Qed.

Lemma process_countries_consistent w rates l : forall c c' o,
  agree_on (bind (services.db c)) l ->
  services.process_countries w rates l c = (c', o) ->
  consistent (bind (services.db c)) (pending (services.db c)) ->
  consistent (bind (services.db c')) (pending (services.db c')).
Proof.
  induction l as [|cd l IH]; simpl; intros c c' o Ha.
  - now intros [= <- <-].
  - apply agree_on_cons in Ha as [Ha1 Ha2].
    destruct (services.process_country w rates c cd) as [c1|e] eqn:E.
    + intros H Hc. destruct (process_country_session _ _ _ _ _ E) as (Hb & _).
      eapply IH; [|exact H|].
      * now rewrite Hb.
      * eapply process_country_consistent; eauto.
    + now intros [= <- <-].
Qed.

Lemma upsert_country_count db d t r db' :
  crud.upsert_country db d t = Return (r, db') ->
  (crud.get_countries_count db <= crud.get_countries_count db')%nat
  /\ (crud.get_country_by_name db (CountryCreate.name d) <> None ->
      crud.get_countries_count db' = crud.get_countries_count db).
Proof.
  intros H. unfold crud.get_countries_count.
  apply upsert_country_inv in H as (_ & [(c0 & Hf & _ & ->)|(Hf & _ & ->)]); simpl.
  - rewrite length_map. split; [lia | reflexivity].
  - rewrite length_app. simpl. split; [lia | congruence].
Qed.

Lemma upsert_country_keeps_found db d t r db' n :
  consistent (bind db) (pending db) ->
  agree (bind db) (CountryCreate.name d) ->
  crud.upsert_country db d t = Return (r, db') ->
  crud.get_country_by_name db n <> None ->
  crud.get_country_by_name db' n <> None.
Proof.
  intros (Hid & _ & _) Ha H Hn.
  destruct (String.eqb_spec (str_lower (bind db) n)
                            (str_lower (bind db) (CountryCreate.name d))) as [E|E].
  - now rewrite (get_country_by_name_upsert db d t r db' n H Ha E).
  - rewrite (upsert_country_frame db d t r db' n Hid E); [exact Hn| |exact H].
    unfold agree in Ha. now rewrite Ha.
Qed.

Lemma process_country_keeps w rates c cd c' :
  agree_on (bind (services.db c)) [cd] ->
  consistent (bind (services.db c)) (pending (services.db c)) ->
  services.process_country w rates c cd = Return c' ->
  (forall n, crud.get_country_by_name (services.db c) n <> None ->
             crud.get_country_by_name (services.db c') n <> None)
  /\ (crud.get_countries_count (services.db c)
      <= crud.get_countries_count (services.db c'))%nat.
Proof.
  intros Ha Hc H. apply process_country_inv in H as [[_ ->]|(Hk & d & r & Hd & H)].
  - split; [auto | lia].
  - split; [|eapply upsert_country_count; eauto].
    intros n. eapply upsert_country_keeps_found; eauto.
    apply (Ha cd); [now left | exact Hk | exact Hd].
Qed.

Lemma process_countries_keeps w rates l : forall c c' o,
  agree_on (bind (services.db c)) l ->
  consistent (bind (services.db c)) (pending (services.db c)) ->
  services.process_countries w rates l c = (c', o) ->
  (forall n, crud.get_country_by_name (services.db c) n <> None ->
             crud.get_country_by_name (services.db c') n <> None)
  /\ (crud.get_countries_count (services.db c)
      <= crud.get_countries_count (services.db c'))%nat.
Proof.
  induction l as [|cd l IH]; simpl; intros c c' o Ha Hc.
  - intros [= <- <-]. split; [auto | lia].
  - apply agree_on_cons in Ha as [Ha1 Ha2].
    destruct (services.process_country w rates c cd) as [c1|e] eqn:E.
    + intros H. destruct (process_country_keeps _ _ _ _ _ Ha1 Hc E) as [H1 H2].
      destruct (process_country_session _ _ _ _ _ E) as (Hb & _).
      rewrite <- Hb in Ha2.
      destruct (IH _ _ _ Ha2 (process_country_consistent _ _ _ _ _ Ha1 E Hc) H)
        as [H3 H4].
      split; [auto | lia].
    + intros [= <- <-]. split; [auto | lia].
Qed.

(** What a cycle leaves in the session, whatever its outcome: the session it
    got, the session of a loop that raised, or the committed session of a
    loop that ran through. *)
Lemma process_and_cache_countries_inv w db res db' :
  services.process_and_cache_countries w db = (res, db') ->
  (db' = db
   /\ exists e, res = Raise e
        /\ services.gather (services.countries_fails_first w)
             (services.fetch_exchange_rates w) (services.fetch_countries_data w)
           = Raise e)
  \/ exists rates l c o,
       services.fetch_exchange_rates w = Return rates
       /\ services.fetch_countries_data w = Return l
       /\ services.process_countries w rates l (fresh db) = (c, o)
       /\ (match o with
           | Some e => res = Raise e /\ db' = services.db c
           | None =>
               db' = commit (crud.update_app_status (services.db c) (services.utc_now w))
               /\ ((services.image_saved w = true
                    /\ res = Return {| services.status := "success";
                                       services.refreshed_at := services.utc_now w |})
                   \/ (services.image_saved w = false /\ res = Raise OSError))
           end).
Proof.
  unfold services.process_and_cache_countries, services.generate_summary_image.
  destruct (services.fetch_exchange_rates w) as [rates|e1] eqn:E1,
    (services.fetch_countries_data w) as [l|e2] eqn:E2; simpl;
    try (intros [= <- <-]; left; split; [reflexivity | eexists; split; reflexivity]).
  fold (fresh db).
  destruct (services.process_countries w rates l (fresh db)) as [c [e|]] eqn:E.
  - intros [= <- <-]. right. exists rates, l, c, (Some e). auto.
  - destruct (services.image_saved w) eqn:Ei; intros [= <- <-]; right;
      exists rates, l, c, None; repeat split; auto.
Qed.

(** X9. A refresh removes nothing: on a consistent store, when the engine
    lower-cases the names of the fetched records as Python does, whatever
    the sources answer and however the cycle ends, every name that was
    found before the cycle is found in the session after it, and the table
    has not become shorter. Countries the source no longer lists stay
    stored. *)
Theorem refresh_removes_nothing (w : services.World) (db db' : AsyncSession)
    (res : result services.Refreshed) :
  consistent (bind db) (pending db) ->
  (forall l, services.fetch_countries_data w = Return l -> agree_on (bind db) l) ->
  services.process_and_cache_countries w db = (res, db') ->
  (forall n, crud.get_country_by_name db n <> None ->
             crud.get_country_by_name db' n <> None)
  /\ (crud.get_countries_count db <= crud.get_countries_count db')%nat.
Proof.
  intros Hc Ha H.
  apply process_and_cache_countries_inv in H
    as [[-> _]|(rates & l & c & o & _ & Hl & E & H)].
  - split; [auto | lia].
  - destruct (process_countries_keeps w rates l (fresh db) c o (Ha l Hl) Hc E)
      as [H1 H2].
    destruct o as [e|]; [destruct H as [_ ->]; now split|].
    destruct H as [-> _]. split; [|exact H2].
    intros n Hn. apply H1 in Hn. exact Hn.
Qed.

Lemma deployed_agrees (engine : NullRank) l :
  agree_on (deployed engine) l.
Proof. intros cd n _ _ _. reflexivity. Qed.

Lemma refresh_removes_nothing_three_rows :
  exists res db',
    services.process_and_cache_countries
      (world (services.Response 200 sample_rates) (services.Response 200 [wakanda]) true)
      (session NullsLowest three_rows) = (res, db')
    /\ crud.get_country_by_name db' "GHANA" <> None
    /\ (3 <= crud.get_countries_count db')%nat.
Proof.
  do 2 eexists. split; [reflexivity|].
  destruct (refresh_removes_nothing
              (world (services.Response 200 sample_rates)
                     (services.Response 200 [wakanda]) true)
              (session NullsLowest three_rows) _ _ three_rows_consistent
              (fun l _ => deployed_agrees NullsLowest l) eq_refl)
    as [H1 H2].
  split; [apply H1; discriminate | exact H2].
Defined.

(** A turn of the loop that does not pass the record over returns when it
    has written a row, and the row is the one found under the name of the
    record as long as the engine and Python agree on the name. *)
Lemma process_country_written w rates c cd c' :
  services.process_country w rates c cd = Return c' -> kept cd = true ->
  exists d row,
    services.country_data.name cd = Some (CountryCreate.name d)
    /\ written w rates c cd = Some row
    /\ crud.upsert_country (services.db c) d (services.db_now w (services.writes c))
       = Return (row, services.db c').
Proof.
  unfold services.process_country, written, kept.
  destruct (services.country_data.name cd) as [n|]; [|discriminate].
  destruct (services.country_data.population cd) as [p|]; [|discriminate].
  simpl. intros H Hk. rewrite Hk in *.
  destruct (services.estimate _ _ _ _) as [[[[cc er] gdp] drawn]|]; [|discriminate].
  destruct (validate _ _ _ _ _ _ _ _ _) as [d|] eqn:Ev; [|discriminate].
  destruct (crud.upsert_country _ _ _) as [[r db']|] eqn:Eu; [|discriminate].
  injection H as <-. exists d, r. simpl.
  apply validate_inv in Ev as (-> & _). auto.
Qed.

Lemma process_countries_all_found w rates l : forall c c',
  agree_on (bind (services.db c)) l ->
  consistent (bind (services.db c)) (pending (services.db c)) ->
  services.process_countries w rates l c = (c', None) ->
  forall cd n, In cd l -> kept cd = true -> services.country_data.name cd = Some n ->
    crud.get_country_by_name (services.db c') n <> None.
Proof.
  induction l as [|cd0 l IH]; simpl; intros c c' Ha Hc H cd n Hin Hk Hn; [tauto|].
  pose proof Ha as Ha'. apply agree_on_cons in Ha' as [Ha1 Ha2].
  destruct (services.process_country w rates c cd0) as [c1|e] eqn:E; [|discriminate].
  pose proof (process_country_consistent _ _ _ _ _ Ha1 E Hc) as Hc1.
  destruct (process_country_session _ _ _ _ _ E) as (Hb & _). rewrite <- Hb in Ha2.
  destruct Hin as [->|Hin]; [|now apply (IH c1 c' Ha2 Hc1 H cd n)].
  apply (process_countries_keeps _ _ _ _ _ _ Ha2 Hc1 H).
  apply process_country_inv in E as [[Hk' _]|(_ & d & r & Hd & E)]; [congruence|].
  assert (n = CountryCreate.name d) as -> by congruence.
  rewrite (get_country_by_name_upsert _ _ _ _ _ (CountryCreate.name d) E);
    [discriminate | | reflexivity].
  apply (Ha cd); [now left | exact Hk | exact Hd].
Qed.

Lemma process_countries_no_growth w rates l : forall c c' o,
  agree_on (bind (services.db c)) l ->
  consistent (bind (services.db c)) (pending (services.db c)) ->
  (forall cd n, In cd l -> kept cd = true -> services.country_data.name cd = Some n ->
     crud.get_country_by_name (services.db c) n <> None) ->
  services.process_countries w rates l c = (c', o) ->
  crud.get_countries_count (services.db c') = crud.get_countries_count (services.db c).
Proof.
  induction l as [|cd0 l IH]; simpl; intros c c' o Ha Hc Hfound.
  - now intros [= <- <-].
  - apply agree_on_cons in Ha as [Ha1 Ha2].
    destruct (services.process_country w rates c cd0) as [c1|e] eqn:E;
      [|now intros [= <- <-]].
    intros H.
    pose proof (process_country_consistent _ _ _ _ _ Ha1 E Hc) as Hc1.
    destruct (process_country_keeps _ _ _ _ _ Ha1 Hc E) as [Hkeep _].
    destruct (process_country_session _ _ _ _ _ E) as (Hb & _). rewrite <- Hb in Ha2.
    rewrite (IH c1 c' o Ha2 Hc1);
      [|intros cd n Hin Hk Hn; apply Hkeep; eauto | exact H].
    apply process_country_inv in E as [[_ ->]|(Hk & d & r & Hd & E)]; [reflexivity|].
    eapply upsert_country_count; [exact E|]. apply (Hfound cd0); auto.
Qed.

(** X10. Refreshing again adds no row: on a consistent store, when the
    engine lower-cases the names of the list as Python does, after a cycle
    that succeeded on the list a second cycle whose countries source answers
    with the same list leaves the table as long as the first left it,
    whatever the rates, the clocks and the outcome of the second cycle. *)
Theorem refresh_again_adds_no_row (w w' : services.World) (db db1 db2 : AsyncSession)
    (l : list services.country_data.t) (res : services.Refreshed)
    (res2 : result services.Refreshed) :
  consistent (bind db) (pending db) ->
  agree_on (bind db) l ->
  services.fetch_countries_data w = Return l ->
  services.fetch_countries_data w' = Return l ->
  services.process_and_cache_countries w db = (Return res, db1) ->
  services.process_and_cache_countries w' db1 = (res2, db2) ->
  crud.get_countries_count db2 = crud.get_countries_count db1.
Proof.
  intros Hc Ha Hl Hl' H1 H2.
  apply process_and_cache_countries_inv in H1
    as [[_ (e & He & _)]|(rates & l0 & c & o & _ & Hl0 & E & H1)]; [discriminate|].
  destruct o as [e|]; [now destruct H1|]. destruct H1 as [-> _].
  assert (l0 = l) as -> by congruence.
  pose proof (process_countries_consistent w rates l (fresh db) c None Ha E Hc) as Hc1.
  pose proof (process_countries_all_found w rates l (fresh db) c Ha Hc E) as Hfound.
  destruct (process_countries_session _ _ _ _ _ _ E) as (Hb & _). simpl in Hb.
  apply process_and_cache_countries_inv in H2
    as [[-> _]|(rates' & l0 & c2 & o2 & _ & Hl0' & E2 & H2)]; [reflexivity|].
  assert (l0 = l) as -> by congruence.
  assert (Hcount : crud.get_countries_count (services.db c2)
                   = crud.get_countries_count
                       (commit (crud.update_app_status (services.db c)
                                  (services.utc_now w)))).
  { refine (process_countries_no_growth w' rates' l
              (fresh (commit (crud.update_app_status (services.db c)
                                (services.utc_now w))))
              c2 o2 _ Hc1 Hfound E2).
    simpl. now rewrite Hb. }
  destruct o2 as [e|]; [now destruct H2 as [_ ->]|].
  destruct H2 as [-> _]. exact Hcount.
Qed.

Lemma refresh_again_adds_no_row_wakanda :
  exists db1 res2 db2,
    services.process_and_cache_countries
      (world (services.Response 200 sample_rates)
             (services.Response 200 [wakanda; nameless]) true)
      (session NullsLowest three_rows)
    = (Return {| services.status := "success"; services.refreshed_at := 100 |}, db1)
    /\ services.process_and_cache_countries
         (world (services.Response 200 ∅) (services.Response 200 [wakanda; nameless])
                false)
         db1 = (res2, db2)
    /\ crud.get_countries_count db2 = 4%nat.
Proof.
  do 3 eexists. split; [reflexivity|]. split; [reflexivity|].
  rewrite (refresh_again_adds_no_row
             (world (services.Response 200 sample_rates)
                    (services.Response 200 [wakanda; nameless]) true)
             (world (services.Response 200 ∅)
                    (services.Response 200 [wakanda; nameless]) false)
             (session NullsLowest three_rows) _ _ [wakanda; nameless] _ _
             three_rows_consistent (deployed_agrees NullsLowest _)
             eq_refl eq_refl eq_refl eq_refl).
  reflexivity.
Defined.

(** X11. A refresh request commits all of a cycle or none of it. The store
    it leaves is the store it found, or the store in which every turn of
    the loop and the status update are applied; it is the store it found
    whenever the answer is 503, and no uncommitted write outlives the
    request. *)
Theorem refresh_all_or_nothing (w : services.World) (db : AsyncSession) :
  let answer := fst (main.refresh_countries_data w db) in
  let after := snd (main.refresh_countries_data w db) in
  pending after = committed after
  /\ (committed after = committed db
      \/ exists rates l c,
           services.fetch_exchange_rates w = Return rates
           /\ services.fetch_countries_data w = Return l
           /\ services.process_countries w rates l (fresh db) = (c, None)
           /\ committed after
              = pending (crud.update_app_status (services.db c) (services.utc_now w)))
  /\ (main.status_code answer = 503 -> committed after = committed db).
Proof.
  unfold main.refresh_countries_data.
  destruct (services.process_and_cache_countries w db) as [res db'] eqn:H.
  apply process_and_cache_countries_inv in H
    as [[-> (e & -> & _)]|(rates & l & c & o & Hr & Hl & E & H)].
  - simpl. auto.
  - destruct o as [e|].
    + destruct H as [-> ->]. simpl.
      rewrite (process_countries_committed _ _ _ _ _ _ E). simpl. auto.
    + destruct H as [-> [[_ ->]|[_ ->]]]; simpl;
        (split; [reflexivity|]; split; [right; exists rates, l, c; auto | discriminate]).
Qed.

Lemma process_countries_stops w rates l :
  Exists (fun cd => kept cd = true /\ unstorable_code cd = true) l ->
  forall c, exists c' e, services.process_countries w rates l c = (c', Some e).
Proof.
  induction 1 as [cd l [Hk Hu]|cd l _ IH]; intros c; simpl.
  - assert (exists e, services.process_country w rates c cd = Raise e) as [e ->];
      [|eauto].
    unfold services.process_country, services.estimate, kept, unstorable_code in *.
    destruct (services.country_data.name cd) as [n|]; [|discriminate].
    destruct (services.country_data.population cd) as [p|]; [|discriminate].
    change (truthy (JString n)) with (negb (n =? "")%string). rewrite Hk.
    cbn [negb].
    destruct (services.first_currency_code _) as [|b|q|s|items|members];
      try discriminate;
      rewrite Hu; eauto.
  - destruct (services.process_country w rates c cd) as [c1|e]; [apply IH | eauto].
Qed.

(** X12. One record poisons the cycle: when both sources answer and some
    record that is not passed over has a first currency whose code counts as
    true without being a string (a number, [true], a list, a dict), the
    request is answered 500 and nothing of the cycle is committed. *)
Theorem unstorable_code_fails_refresh (w : services.World) (db : AsyncSession)
    (rates : gmap string number) (l : list services.country_data.t) :
  services.fetch_exchange_rates w = Return rates ->
  services.fetch_countries_data w = Return l ->
  Exists (fun cd => kept cd = true /\ unstorable_code cd = true) l ->
  fst (main.refresh_countries_data w db)
  = {| main.status_code := 500;
       main.content := main.Error "Internal server error" None |}
  /\ committed (snd (main.refresh_countries_data w db)) = committed db.
Proof.
  intros Hr Hl Hbad.
  destruct (process_countries_stops w rates l Hbad (fresh db)) as (c & e & E).
  unfold main.refresh_countries_data, services.process_and_cache_countries.
  rewrite Hr, Hl. simpl. fold (fresh db). rewrite E. simpl.
  rewrite (process_countries_committed _ _ _ _ _ _ E). split; [|reflexivity].
  apply internal_is_500. eapply process_countries_raises; eauto.
Qed.

Lemma unstorable_code_fails_refresh_number :
  fst (main.refresh_countries_data
         (world (services.Response 200 sample_rates)
                (services.Response 200
                   [wakanda;
                    country "Oddland" 5 (JArray [JObject [("code", JNumber (840 # 1))]])])
                true)
         (session NullsLowest three_rows))
  = {| main.status_code := 500;
       main.content := main.Error "Internal server error" None |}
  /\ committed
       (snd (main.refresh_countries_data
               (world (services.Response 200 sample_rates)
                      (services.Response 200
                         [wakanda;
                          country "Oddland" 5
                            (JArray [JObject [("code", JNumber (840 # 1))]])])
                      true)
               (session NullsLowest three_rows)))
     = committed (session NullsLowest three_rows).
Proof.
  apply (unstorable_code_fails_refresh _ _ sample_rates
           [wakanda;
            country "Oddland" 5 (JArray [JObject [("code", JNumber (840 # 1))]])]);
    [reflexivity | reflexivity |].
  apply Exists_cons_tl, Exists_cons_hd. split; reflexivity.
Defined.

Lemma process_countries_frame w rates n l : forall c c' o,
  agree_on (bind (services.db c)) l ->
  consistent (bind (services.db c)) (pending (services.db c)) ->
  services.process_countries w rates l c = (c', o) ->
  (forall cd n', In cd l -> kept cd = true ->
     services.country_data.name cd = Some n' ->
     str_lower (bind (services.db c)) n' <> str_lower (bind (services.db c)) n) ->
  crud.get_country_by_name (services.db c') n
  = crud.get_country_by_name (services.db c) n.
Proof.
  induction l as [|cd l IH]; simpl; intros c c' o Ha Hc H Hother.
  - now injection H as <- <-.
  - pose proof Ha as Ha'. apply agree_on_cons in Ha' as [Ha1 Ha2].
    destruct (services.process_country w rates c cd) as [c1|e] eqn:E;
      [|now injection H as <- <-].
    destruct (process_country_session _ _ _ _ _ E) as (Hb & _).
    rewrite (IH c1 c' o); [| now rewrite Hb
                           | exact (process_country_consistent _ _ _ _ _ Ha1 E Hc)
                           | exact H
                           | rewrite Hb; intros cd' n' Hin; apply Hother; now right ].
    apply process_country_inv in E as [[_ ->]|(Hk & d & r & Hd & E)]; [reflexivity|].
    assert (Hne : str_lower (bind (services.db c)) n
                  <> str_lower (bind (services.db c)) (CountryCreate.name d)).
    { intros Hn. apply (Hother cd (CountryCreate.name d)); auto. }
    eapply upsert_country_frame; [apply Hc | exact Hne | | exact E].
    assert (Hag : agree (bind (services.db c)) (CountryCreate.name d))
      by (apply (Ha cd); [now left | exact Hk | exact Hd]).
    unfold agree in Hag. now rewrite Hag.
Qed.

(** X13. What a record stored stays as stored to the end of the loop unless
    a later record has its name: on a consistent store, when the engine
    lower-cases the names of the records as Python does and no record after
    it that is not passed over has a name that Python lower-cases the same,
    the row found under its name after the loop is the row its own turn
    wrote. So of two records with one name the later one decides. *)
Theorem stored_until_same_name (w : services.World) (rates : gmap string number)
    (cd : services.country_data.t) (rest : list services.country_data.t)
    (c c1 c' : services.Cycle) (o : option exn) (n : string) :
  consistent (bind (services.db c)) (pending (services.db c)) ->
  agree_on (bind (services.db c)) (cd :: rest) ->
  services.country_data.name cd = Some n -> kept cd = true ->
  services.process_country w rates c cd = Return c1 ->
  services.process_countries w rates rest c1 = (c', o) ->
  (forall cd' n', In cd' rest -> kept cd' = true ->
     services.country_data.name cd' = Some n' ->
     str_lower (bind (services.db c)) n' <> str_lower (bind (services.db c)) n) ->
  exists row,
    written w rates c cd = Some row
    /\ crud.get_country_by_name (services.db c') n = Some row.
Proof.
  intros Hc Ha Hn Hk E H Hother.
  pose proof Ha as Ha'. apply agree_on_cons in Ha' as [Ha1 Ha2].
  destruct (process_country_session _ _ _ _ _ E) as (Hb & _).
  destruct (process_country_written _ _ _ _ _ E Hk) as (d & row & Hd & Hw & Hu).
  exists row. split; [exact Hw|].
  rewrite (process_countries_frame w rates n rest c1 c' o);
    [| now rewrite Hb
     | exact (process_country_consistent _ _ _ _ _ Ha1 E Hc)
     | exact H
     | now rewrite Hb ].
  assert (n = CountryCreate.name d) as -> by congruence.
  eapply get_country_by_name_upsert; [exact Hu| |reflexivity].
  apply (Ha cd); [now left | exact Hk | exact Hd].
Qed.

Lemma stored_until_same_name_nigeria :
  exists c1 c' row,
    services.process_country
      (world (services.Response 200 sample_rates) (services.Response 200 []) true)
      sample_rates (fresh (session NullsLowest three_rows))
      (country "NIGERIA" 200 (JArray [currency "USD"])) = Return c1
    /\ services.process_countries
         (world (services.Response 200 sample_rates) (services.Response 200 []) true)
         sample_rates [wakanda; nameless] c1 = (c', None)
    /\ crud.get_country_by_name (services.db c') "NIGERIA" = Some row
    /\ Country.estimated_gdp row = Some (Finite (201400 # 1)).
Proof.
  destruct (stored_until_same_name
              (world (services.Response 200 sample_rates) (services.Response 200 []) true)
              sample_rates (country "NIGERIA" 200 (JArray [currency "USD"]))
              [wakanda; nameless] (fresh (session NullsLowest three_rows)) _ _ None
              "NIGERIA" three_rows_consistent (deployed_agrees NullsLowest _)
              eq_refl eq_refl eq_refl eq_refl) as (row & Hw & Hf).
  { intros cd' n' [<-|[<-|[]]] Hk; [intros [= <-]; discriminate | discriminate]. }
  do 3 eexists. split; [reflexivity|]. split; [reflexivity|]. split; [exact Hf|].
  injection Hw as <-. reflexivity.
Defined.
(** X14. A source that fails in transport (connection error, timeout) while
    the other answers 2xx is answered 503 with the fixed error text and the
    name of the source that failed, the text of the failure itself left
    out; the session is handed back closed with nothing written. *)
Theorem transport_failure_is_503 (w : services.World) (db : AsyncSession)
    (details : string) (status_code : Z) :
  services.is_success status_code = true ->
  (forall countries,
      services.rates_response w = services.RequestError details ->
      services.countries_response w = services.Response status_code countries ->
      main.refresh_countries_data w db
      = ({| main.status_code := 503;
            main.content :=
              main.Error "External data source unavailable"
                         (Some "Could not fetch data from Exchange Rates API") |},
         close db))
  /\ (forall rates,
        services.countries_response w = services.RequestError details ->
        services.rates_response w = services.Response status_code rates ->
        main.refresh_countries_data w db
        = ({| main.status_code := 503;
              main.content :=
                main.Error "External data source unavailable"
                           (Some "Could not fetch data from RestCountries API") |},
           close db)).
Proof.
  intros Hs. split; intros body H1 H2;
    unfold main.refresh_countries_data, services.process_and_cache_countries,
      services.fetch_exchange_rates, services.fetch_countries_data;
    rewrite H1, H2, Hs; reflexivity.
Qed.

Lemma transport_failure_is_503_timeout :
  main.refresh_countries_data
    (world (services.Response 200 sample_rates) (services.RequestError "timed out") true)
    (session NullsLowest three_rows)
  = ({| main.status_code := 503;
        main.content :=
          main.Error "External data source unavailable"
                     (Some "Could not fetch data from RestCountries API") |},
     session NullsLowest three_rows).
Proof.
  refine (proj2 (transport_failure_is_503
                   (world (services.Response 200 sample_rates)
                          (services.RequestError "timed out") true)
                   (session NullsLowest three_rows) "timed out" 200 eq_refl)
            sample_rates eq_refl eq_refl).
Defined.


(** *** The invariant across a cycle *)

(** Whatever a refresh request meets, it leaves a consistent store
    consistent, when the engine lower-cases the names it is sent as Python
    does. *)
Lemma refresh_countries_data_consistent w db :
  (forall l, services.fetch_countries_data w = Return l -> agree_on (bind db) l) ->
  consistent (bind db) (committed db) -> consistent (bind db) (pending db) ->
  consistent (bind db) (committed (snd (main.refresh_countries_data w db))).
Proof.
  intros Ha Hc Hp.
  unfold main.refresh_countries_data.
  destruct (services.process_and_cache_countries w db) as [res db'] eqn:H.
  apply process_and_cache_countries_inv in H
    as [[-> (e & -> & _)]|(rates & l & c & o & _ & Hl & E & H)]; [exact Hc|].
  destruct (process_countries_session _ _ _ _ _ _ E) as (Hb & Hcom & _).
  simpl in Hb, Hcom.
  assert (Hc' : consistent (bind db) (pending (services.db c))).
  { rewrite <- Hb. eapply process_countries_consistent; [|exact E|exact Hp].
    exact (Ha l Hl). }
  destruct o as [e|].
  - destruct H as [-> ->]. simpl. now rewrite Hcom.
  - destruct H as [-> [[_ ->]|[_ ->]]]; exact Hc'.
Qed.

(** ** The routes *)

Import routes.

Ltac by_route :=
  repeat (match goal with
          | |- context [String.eqb ?x ?y] =>
              destruct (String.eqb_spec x y); subst; cbn -[String.eqb]
          end);
  try congruence.

(** X15. No request is routed to [get_summary_image]: its route comes after
    GET /countries/{name}, which matches every path that it matches, so
    GET /countries/image is the lookup of a country named "image". *)
Theorem get_summary_image_unreachable :
  (forall request partial params,
      router route_table request partial <> Handle to_get_summary_image params)
  /\ (forall query,
        router route_table
          {| method := "GET"; url_path := ["countries"; "image"];
             query_params := query |} false
        = Handle to_get_country_by_name [("name", "image")]).
Proof.
  split; [|reflexivity].
  intros [m path q] partial params. unfold route_table.
  destruct path as [|a [|b [|c rest]]]; cbn -[String.eqb]; by_route;
    destruct partial; congruence.
Qed.

(** X16. Only two kinds of request can change the store: a request leaves
    the store as it found it unless it is POST /countries/refresh or
    DELETE /countries/{name}. In particular no GET writes, whatever its path
    and its query. *)
Theorem only_refresh_and_delete_write (engine : Deployment) (ROOT_DIR : list string)
    (w : services.World) (fs : files.FileSystem) (store : Store) (request : Request) :
  snd (app engine ROOT_DIR w fs store request) = store
  \/ (method request = "POST" /\ url_path request = ["countries"; "refresh"])
  \/ (method request = "DELETE" /\ exists n, url_path request = ["countries"; n]).
Proof.
  destruct request as [m path q]. unfold app, route_table.
  destruct path as [|a [|b [|c rest]]]; cbn -[String.eqb main.refresh_countries_data];
    by_route; eauto.
Qed.

Lemma router_delete n query :
  router route_table
    {| method := "DELETE"; url_path := ["countries"; n]; query_params := query |} false
  = Handle to_delete_country [("name", n)].
Proof. unfold route_table. cbn -[String.eqb]. by_route. Qed.

Lemma router_get n query :
  router route_table
    {| method := "GET"; url_path := ["countries"; n]; query_params := query |} false
  = Handle to_get_country_by_name [("name", n)].
Proof. unfold route_table. cbn -[String.eqb]. by_route. Qed.

(** C8, as the code has it. Looking a country up by name gives the same
    row, or the same absence, for any two spellings of the name that Python
    lower-cases to the same string, as "Nigeria" and "nigeria", whatever
    the engine makes of the names stored; so GET /countries/{name} answers
    both spellings alike. *)
Theorem get_country_by_name_any_casing (engine : Deployment) (n1 n2 : string) :
  str_lower engine n1 = str_lower engine n2 ->
  (forall db, bind db = engine ->
     crud.get_country_by_name db n1 = crud.get_country_by_name db n2)
  /\ (forall ROOT_DIR w fs store,
        app engine ROOT_DIR w fs store (request "GET" ["countries"; n1])
        = app engine ROOT_DIR w fs store (request "GET" ["countries"; n2])).
Proof.
  intros H.
  assert (Hdb : forall db, bind db = engine ->
            crud.get_country_by_name db n1 = crud.get_country_by_name db n2).
  { intros db <-. unfold crud.get_country_by_name. now rewrite H. }
  split; [exact Hdb|].
  intros ROOT_DIR w fs store. unfold app, request. rewrite !router_get.
  cbn [param String.eqb Ascii.eqb Bool.eqb]. unfold get_country_by_name.
  now rewrite (Hdb (get_db engine store) eq_refl).
Qed.

Lemma get_country_by_name_ivory_coast :
  crud.get_country_by_name
    (session_on sqlite [row 1 "Côte d'Ivoire" None 10]) "CÔTE D'IVOIRE"
  = crud.get_country_by_name
      (session_on sqlite [row 1 "Côte d'Ivoire" None 10]) "Côte d'Ivoire".
Proof.
  refine (proj1 (get_country_by_name_any_casing sqlite "CÔTE D'IVOIRE" "Côte d'Ivoire" _)
            (session_on sqlite [row 1 "Côte d'Ivoire" None 10]) eq_refl).
  vm_compute. reflexivity.
Defined.

Example get_country_by_name_finds_ivory_coast :
  crud.get_country_by_name
    (session_on sqlite [row 1 "Côte d'Ivoire" None 10]) "CÔTE D'IVOIRE"
  = Some (row 1 "Côte d'Ivoire" None 10)
  /\ crud.get_country_by_name
       (session_on sqlite [row 1 "CÔTE D'IVOIRE" None 10]) "Côte d'Ivoire" = None
  /\ crud.get_country_by_name
       (session NullsLowest [row 1 "CÔTE D'IVOIRE" None 10]) "Côte d'Ivoire"
     = Some (row 1 "CÔTE D'IVOIRE" None 10).
Proof. vm_compute. repeat split. Qed.

(** C8, as stated, fails: not every two casings of a name lower-case to
    the same string. The capital of the dotless i is the letter I, whose
    small letter is the dotted i; the capital of the sharp s is SS. With
    "Diyarbakır" and "Straße" stored, each is found under its own
    spelling and not under its spelling in capitals, on SQLite and on an
    engine that lower-cases as Python does. *)
Lemma get_country_by_name_misses_capitals :
  let rows := [row 1 "Diyarbakır" None 10; row 2 "Straße" None 10] in
  str_lower sqlite "Diyarbakır" = "diyarbakır"
  /\ str_lower sqlite "DIYARBAKIR" = "diyarbakir"
  /\ str_lower sqlite "STRASSE" = "strasse"
  /\ crud.get_country_by_name (session_on sqlite rows) "Diyarbakır"
     = Some (row 1 "Diyarbakır" None 10)
  /\ crud.get_country_by_name (session_on sqlite rows) "DIYARBAKIR" = None
  /\ crud.get_country_by_name (session_on sqlite rows) "Straße"
     = Some (row 2 "Straße" None 10)
  /\ crud.get_country_by_name (session_on sqlite rows) "STRASSE" = None
  /\ crud.get_country_by_name (session NullsLowest rows) "Diyarbakır"
     = Some (row 1 "Diyarbakır" None 10)
  /\ crud.get_country_by_name (session NullsLowest rows) "DIYARBAKIR" = None
  /\ crud.get_country_by_name (session NullsLowest rows) "STRASSE" = None.
Proof. vm_compute. repeat split. Qed.

(** X17. On a consistent store, DELETE /countries/{name} for a name that is
    found answers with the name as stored and leaves a store one row
    shorter; on that store GET and DELETE for any spelling that Python
    lower-cases as it does the name, so for any casing that finds the row,
    are answered 404 "Country not found". *)
Theorem delete_then_not_found (engine : Deployment) (ROOT_DIR : list string)
    (w : services.World) (fs : files.FileSystem) (store : Store)
    (n n' : string) (c : Country.t) :
  consistent engine store ->
  crud.get_country_by_name (get_db engine store) n = Some c ->
  str_lower engine n' = str_lower engine n ->
  let deleted := app engine ROOT_DIR w fs store (request "DELETE" ["countries"; n]) in
  fst deleted = Deleted "success" ("Successfully deleted " ++ Country.name c)
  /\ S (length (countries (snd deleted))) = length (countries store)
  /\ fst (app engine ROOT_DIR w fs (snd deleted) (request "GET" ["countries"; n']))
     = JSON {| main.status_code := 404;
               main.content := main.Error "Country not found" None |}
  /\ fst (app engine ROOT_DIR w fs (snd deleted) (request "DELETE" ["countries"; n']))
     = JSON {| main.status_code := 404;
               main.content := main.Error "Country not found" None |}.
Proof.
  intros Hc Hf Hn. unfold app, request. rewrite !router_delete, router_get.
  cbn [param String.eqb Ascii.eqb Bool.eqb]. unfold delete_country, get_country_by_name.
  destruct (delete_country_by_name_removes (get_db engine store) n c Hc Hf)
    as (Hfst & Hcommit & Hgone & _ & Hcount).
  destruct (crud.delete_country_by_name (get_db engine store) n) as [r db'] eqn:E.
  simpl in Hfst, Hcommit, Hgone, Hcount. subst r. cbn [fst snd close committed].
  assert (Hbind : bind db' = engine).
  { revert E. unfold crud.delete_country_by_name. rewrite Hf. now intros [= <-]. }
  assert (Hnone : crud.get_country_by_name (get_db engine (committed db')) n' = None).
  { rewrite <- (Hgone n' Hn). apply get_country_by_name_same_rows; simpl.
    - now symmetry.
    - now rewrite Hcommit. }
  split; [reflexivity|]. split.
  - rewrite Hcommit. exact Hcount.
  - unfold crud.delete_country_by_name. rewrite Hnone. auto.
Qed.

Lemma delete_then_not_found_nigeria :
  fst (app (deployed NullsLowest) project
         (world (services.Response 200 sample_rates) (services.Response 200 []) true)
         (disk project)
         (snd (app (deployed NullsLowest) project
                 (world (services.Response 200 sample_rates) (services.Response 200 [])
                        true)
                 (disk project) (pending (session NullsLowest three_rows))
                 (request "DELETE" ["countries"; "nigeria"])))
         (request "GET" ["countries"; "NIGERIA"]))
  = JSON {| main.status_code := 404;
            main.content := main.Error "Country not found" None |}.
Proof.
  refine (proj1 (proj2 (proj2
    (delete_then_not_found (deployed NullsLowest) project _ (disk project)
       (pending (session NullsLowest three_rows)) "nigeria" "NIGERIA"
       (row 1 "Nigeria" (Some (5 # 1)) 10) three_rows_consistent eq_refl eq_refl)))).
Defined.

(** X18. After a refresh that is answered 200, GET /status reports the
    number of rows of the store the refresh left and, as the time of the
    last refresh, the [refreshed_at] of that answer. *)
Theorem status_after_refresh (engine : Deployment) (ROOT_DIR : list string)
    (w w' : services.World) (fs fs' : files.FileSystem) (store store' : Store)
    (status : string) (refreshed_at : Time) :
  app engine ROOT_DIR w fs store (request "POST" ["countries"; "refresh"])
  = (JSON {| main.status_code := 200;
             main.content := main.RefreshResult status refreshed_at |}, store') ->
  app engine ROOT_DIR w' fs' store' (request "GET" ["status"])
  = (Status {| total_countries := length (countries store');
               last_refreshed_at := Some refreshed_at |}, store').
Proof.
  unfold app, request, route_table. cbn -[main.refresh_countries_data].
  unfold main.refresh_countries_data.
  destruct (services.process_and_cache_countries w (get_db engine store))
    as [res db'] eqn:H.
  apply process_and_cache_countries_inv in H
    as [[-> (e & -> & _)]|(rates & l & c & o & _ & _ & E & H)].
  - destruct e; discriminate.
  - destruct o as [e|].
    + destruct H as [-> ->]. destruct e; discriminate.
    + destruct H as [-> [[_ ->]|[_ ->]]]; [|discriminate].
      simpl. intros [= _ <- <-]. unfold get_status, crud.get_countries_count,
        crud.get_app_status. simpl.
      now destruct (app_status (pending (services.db c))).
Qed.

Lemma status_after_refresh_wakanda :
  app (deployed NullsHighest) project
      (world (services.Response 500 ∅) (services.RequestError "down") false)
      (disk ["tmp"])
      (snd (app (deployed NullsHighest) project
              (world (services.Response 200 sample_rates)
                     (services.Response 200 [wakanda]) true)
              (disk project) (pending (session NullsLowest three_rows))
              (request "POST" ["countries"; "refresh"])))
      (request "GET" ["status"])
  = (Status {| total_countries := 4; last_refreshed_at := Some 100 |},
     snd (app (deployed NullsHighest) project
            (world (services.Response 200 sample_rates)
                   (services.Response 200 [wakanda]) true)
            (disk project) (pending (session NullsLowest three_rows))
            (request "POST" ["countries"; "refresh"]))).
Proof.
  exact (status_after_refresh (deployed NullsHighest) project
           (world (services.Response 200 sample_rates)
                  (services.Response 200 [wakanda]) true)
           (world (services.Response 500 ∅) (services.RequestError "down") false)
           (disk project) (disk ["tmp"]) (pending (session NullsLowest three_rows))
           (snd (app (deployed NullsHighest) project
                   (world (services.Response 200 sample_rates)
                          (services.Response 200 [wakanda]) true)
                   (disk project) (pending (session NullsLowest three_rows))
                   (request "POST" ["countries"; "refresh"])))
           "success" 100 eq_refl).
Defined.

(** X19. Every request keeps the store well formed, when the engine
    lower-cases the names the countries source sends as Python does: if the
    store is consistent and its status table holds no row or the row of key
    1, so is the store the request leaves, whatever the request, the rest of
    the world it runs in and its outcome. *)
Theorem app_keeps_store_well_formed (engine : Deployment) (ROOT_DIR : list string)
    (w : services.World) (fs : files.FileSystem) (store : Store) (request : Request) :
  (forall l, services.fetch_countries_data w = Return l -> agree_on engine l) ->
  consistent engine store -> singleton_status store ->
  consistent engine (snd (app engine ROOT_DIR w fs store request))
  /\ singleton_status (snd (app engine ROOT_DIR w fs store request)).
Proof.
  intros Ha Hc Hs. unfold app.
  destruct (router route_table request false) as [[| | | | |] params| |];
    try (split; assumption).
  - pose proof (refresh_countries_data_consistent w (get_db engine store) Ha Hc Hc) as H.
    destruct (main.refresh_countries_data w (get_db engine store)) as [resp db'] eqn:E.
    split; [exact H|]. simpl. clear H. revert E. unfold main.refresh_countries_data.
    destruct (services.process_and_cache_countries w (get_db engine store))
      as [res db1] eqn:H.
    apply process_and_cache_countries_inv in H
      as [[-> (e & -> & _)]|(rates & l & c & o & _ & _ & E & H)].
    + intros [= _ <-]. exact Hs.
    + pose proof (process_countries_committed _ _ _ _ _ _ E) as Hcom.
      pose proof (process_countries_app_status _ _ _ _ _ _ E) as Hst.
      simpl in Hcom, Hst. destruct o as [e|].
      * destruct H as [-> ->]. intros [= _ <-]. simpl. now rewrite Hcom.
      * assert (Hafter : singleton_status
                  (pending (crud.update_app_status (services.db c) (services.utc_now w)))).
        { unfold singleton_status, crud.update_app_status, crud.get_app_status. simpl.
          rewrite Hst. unfold singleton_status in Hs.
          now destruct (app_status store). }
        destruct H as [-> [[_ ->]|[_ ->]]]; intros [= _ <-]; exact Hafter.
  - unfold delete_country.
    pose proof (delete_country_by_name_consistent (get_db engine store)
                  (param params "name") Hc) as H.
    unfold crud.delete_country_by_name in *.
    destruct (crud.get_country_by_name (get_db engine store) (param params "name"));
      simpl in *; split; assumption.
Qed.

Lemma app_keeps_store_well_formed_delete :
  consistent (deployed NullsLowest)
    (snd (app (deployed NullsLowest) project
            (world (services.Response 200 sample_rates) (services.Response 200 []) true)
            (disk project) (pending (session NullsLowest three_rows))
            (request "DELETE" ["countries"; "ghana"]))).
Proof.
  refine (proj1 (app_keeps_store_well_formed (deployed NullsLowest) project _
                   (disk project) (pending (session NullsLowest three_rows))
                   (request "DELETE" ["countries"; "ghana"])
                   (fun l _ => deployed_agrees NullsLowest l)
                   three_rows_consistent I)).
Defined.
(** ** The validation handler *)

Lemma find_app_cases {A : Type} (p : A -> bool) l x :
  List.find p (l ++ [x])
  = match List.find p l with
    | Some y => Some y
    | None => if p x then Some x else None
    end.
Proof.
  induction l as [|a l IH]; simpl; [reflexivity|]. now destruct (p a).
Qed.

Lemma fold_details (errors : list error_t) : forall (acc : gmap string string) k,
  fold_left (fun details error => <[field error := msg error]> details) errors acc !! k
  = match List.find (fun e => String.eqb (field e) k) (rev errors) with
    | Some e => Some (msg e)
    | None => acc !! k
    end.
Proof.
  induction errors as [|e errors IH]; intros acc k; simpl; [reflexivity|].
  rewrite IH, find_app_cases.
  destruct (List.find _ (rev errors)); [reflexivity|].
  destruct (String.eqb_spec (field e) k) as [->|Hne].
  - now rewrite lookup_insert_eq.
  - now rewrite lookup_insert_ne.
Qed.

(** X20. The details of a 400 answer hold one entry per field named by an
    error and nothing else: under a key it has the message of the last
    error of that field, and no entry when no error names the key. The
    field of an error is the text of the last component of its location,
    or "body" when the location has fewer than two components. *)
Theorem validation_details_last_message (errors : list error_t) :
  validation_status_code (validation_exception_handler errors) = 400
  /\ (forall k,
        validation_details (validation_exception_handler errors) !! k
        = match List.find (fun e => String.eqb (field e) k) (rev errors) with
          | Some e => Some (msg e)
          | None => None
          end)
  /\ (forall m, field {| loc := []; msg := m |} = "body")
  /\ (forall x m, field {| loc := [x]; msg := m |} = "body")
  /\ (forall before x y m,
        field {| loc := (before ++ [x; y])%list; msg := m |} = str y).
Proof.
  split; [reflexivity|]. split; [|split; [|split]]; try reflexivity.
  - intros k. unfold validation_exception_handler. simpl. now rewrite fold_details.
  - intros before x y m. unfold field. simpl.
    assert (H : List.last (before ++ [x; y]) (Key "body") = y).
    { induction before as [|a before IH]; [reflexivity|].
      simpl. destruct (before ++ [x; y])%list eqn:E; [now destruct before|exact IH]. }
    rewrite H. destruct before as [|a [|b before]]; reflexivity.
Qed.

Example validation_details_example :
  validation_details
    (validation_exception_handler
       [ {| loc := [Key "query"; Key "sort"]; msg := "first" |};
         {| loc := [Key "body"; Key "items"; Index 12]; msg := "second" |};
         {| loc := [Key "query"; Key "sort"]; msg := "third" |};
         {| loc := [Key "region"]; msg := "fourth" |} ])
  = <["sort" := "third"]> (<["12" := "second"]> (<["body" := "fourth"]> ∅)).
Proof. vm_compute. reflexivity. Qed.

(** ** Saving and serving the image *)

Lemma image_path_parent (ROOT_DIR : list string) :
  removelast (config.IMAGE_PATH ROOT_DIR) = (ROOT_DIR ++ ["cache"])%list.
Proof.
  unfold config.IMAGE_PATH. rewrite removelast_app by discriminate. reflexivity.
Qed.

Lemma image_path_not_cache (ROOT_DIR : list string) :
  config.IMAGE_PATH ROOT_DIR <> (ROOT_DIR ++ ["cache"])%list.
Proof.
  unfold config.IMAGE_PATH. intros H. apply app_inv_head in H. discriminate.
Qed.

(** X21. Started in the project root, the end of [generate_summary_image]
    saves the image: if the root is a directory, "cache" in it is not a
    plain file and the image path is not a directory, the cache directory
    exists afterwards, made if it was missing, the image file exists, and
    [get_summary_image] on that file system answers with the file. *)
Theorem save_summary_image_in_root (fs : files.FileSystem) (ROOT_DIR : list string) :
  files.cwd fs = ROOT_DIR ->
  ROOT_DIR ∈ files.dirs fs ->
  (ROOT_DIR ++ ["cache"])%list ∉ files.regular fs ->
  config.IMAGE_PATH ROOT_DIR ∉ files.dirs fs ->
  exists fs',
    files.save_summary_image fs ROOT_DIR = Return fs'
    /\ (ROOT_DIR ++ ["cache"])%list ∈ files.dirs fs'
    /\ config.IMAGE_PATH ROOT_DIR ∈ files.regular fs'
    /\ get_summary_image fs' ROOT_DIR
       = FileResponse (config.IMAGE_PATH ROOT_DIR) "image/png".
Proof.
  intros Hcwd Hroot Hfile Hdir.
  assert (Hsaved : forall files0 : gset (list string),
            config.IMAGE_PATH ROOT_DIR ∈ files0 ∪ {[config.IMAGE_PATH ROOT_DIR]}).
  { intros files0. apply elem_of_union_r, elem_of_singleton. reflexivity. }
  unfold files.save_summary_image, files.makedirs, files.exists_. rewrite Hcwd.
  rewrite (bool_decide_eq_false_2 _ Hfile), orb_false_r.
  rewrite (bool_decide_eq_true_2 _ Hroot).
  destruct (bool_decide ((ROOT_DIR ++ ["cache"])%list ∈ files.dirs fs)) eqn:Hcache;
    cbn [negb andb]; unfold files.save; cbn [files.dirs files.regular];
    rewrite image_path_parent.
  - apply bool_decide_eq_true_1 in Hcache.
    rewrite (bool_decide_eq_true_2 _ Hcache), (bool_decide_eq_false_2 _ Hdir).
    cbn [negb andb]. eexists. split; [reflexivity|].
    unfold get_summary_image, files.exists_. cbn [files.dirs files.regular].
    split; [exact Hcache|]. split; [apply Hsaved|].
    now rewrite (bool_decide_eq_false_2 _ Hdir), (bool_decide_eq_true_2 _ (Hsaved _)).
  - assert (Hin : (ROOT_DIR ++ ["cache"])%list
                  ∈ files.dirs fs ∪ {[(ROOT_DIR ++ ["cache"])%list]}).
    { apply elem_of_union_r, elem_of_singleton. reflexivity. }
    assert (Hout : config.IMAGE_PATH ROOT_DIR
                   ∉ files.dirs fs ∪ {[(ROOT_DIR ++ ["cache"])%list]}).
    { intros H. apply elem_of_union in H as [H|H]; [exact (Hdir H)|].
      apply elem_of_singleton in H. exact (image_path_not_cache ROOT_DIR H). }
    rewrite (bool_decide_eq_true_2 _ Hin), (bool_decide_eq_false_2 _ Hout).
    cbn [negb andb]. eexists. split; [reflexivity|].
    unfold get_summary_image, files.exists_. cbn [files.dirs files.regular].
    split; [exact Hin|]. split; [apply Hsaved|].
    now rewrite (bool_decide_eq_false_2 _ Hout), (bool_decide_eq_true_2 _ (Hsaved _)).
Qed.

Lemma save_summary_image_in_root_project :
  exists fs',
    files.save_summary_image (disk project) project = Return fs'
    /\ ["srv"; "api"; "cache"] ∈ files.dirs fs'
    /\ ["srv"; "api"; "cache"; "summary.png"] ∈ files.regular fs'
    /\ get_summary_image fs' project
       = FileResponse ["srv"; "api"; "cache"; "summary.png"] "image/png".
Proof.
  apply (save_summary_image_in_root (disk project) project); [reflexivity|..];
    vm_compute; set_solver.
Defined.

(** X22. Started anywhere else, with no cache directory under the project
    root, the end of [generate_summary_image] raises: the directory it
    checks and makes is "cache" in the working directory, the file it
    writes is under the project root. *)
Theorem save_summary_image_elsewhere (fs : files.FileSystem) (ROOT_DIR : list string) :
  files.cwd fs <> ROOT_DIR ->
  (ROOT_DIR ++ ["cache"])%list ∉ files.dirs fs ->
  files.save_summary_image fs ROOT_DIR = Raise OSError.
Proof.
  intros Hcwd Hcache. unfold files.save_summary_image, files.makedirs.
  assert (Hne : (ROOT_DIR ++ ["cache"])%list <> (files.cwd fs ++ ["cache"])%list).
  { intros H. apply app_inv_tail in H. congruence. }
  assert (Hout : (ROOT_DIR ++ ["cache"])%list
                 ∉ files.dirs fs ∪ {[(files.cwd fs ++ ["cache"])%list]}).
  { intros H. apply elem_of_union in H as [H|H]; [exact (Hcache H)|].
    apply elem_of_singleton in H. exact (Hne H). }
  destruct (negb (files.exists_ fs (files.cwd fs ++ ["cache"])));
    [destruct (bool_decide (files.cwd fs ∈ files.dirs fs)); cbn [andb];
     [|reflexivity]|];
    unfold files.save; cbn [files.dirs]; rewrite image_path_parent.
  - now rewrite (bool_decide_eq_false_2 _ Hout).
  - now rewrite (bool_decide_eq_false_2 _ Hcache).
Qed.

Lemma save_summary_image_elsewhere_tmp :
  files.save_summary_image (disk ["tmp"]) project = Raise OSError.
Proof.
  apply (save_summary_image_elsewhere (disk ["tmp"]) project).
  - discriminate.
  - vm_compute. set_solver.
Defined.

(** ** Further properties of a successful cycle *)

(** X24. A cycle that succeeds stores every record it did not pass over,
    when the engine lower-cases the names of the records as Python does: on
    a consistent store, after the cycle the name of each such record of the
    fetched list is found, under any spelling that Python lower-cases the
    same, in the committed store, and nothing is left uncommitted. *)
Theorem refresh_stores_every_record (w : services.World) (db db' : AsyncSession)
    (l : list services.country_data.t) (res : services.Refreshed) :
  consistent (bind db) (pending db) ->
  agree_on (bind db) l ->
  services.fetch_countries_data w = Return l ->
  services.process_and_cache_countries w db = (Return res, db') ->
  committed db' = pending db'
  /\ forall cd n n', In cd l -> kept cd = true ->
       services.country_data.name cd = Some n ->
       str_lower (bind db) n' = str_lower (bind db) n ->
       crud.get_country_by_name db' n' <> None.
Proof.
  intros Hc Ha Hl H.
  apply process_and_cache_countries_inv in H
    as [[_ (e & He & _)]|(rates & l0 & c & o & _ & Hl0 & E & H)]; [discriminate|].
  destruct o as [e|]; [now destruct H|]. destruct H as [-> _].
  assert (l0 = l) as -> by congruence.
  split; [reflexivity|]. intros cd n n' Hin Hk Hn Hn'.
  pose proof (process_countries_all_found w rates l (fresh db) c Ha Hc E cd n Hin Hk Hn)
    as Hfound.
  destruct (process_countries_session _ _ _ _ _ _ E) as (Hb & _). simpl in Hb.
  unfold crud.get_country_by_name in *. simpl. rewrite Hb in *. now rewrite Hn'.
Qed.

Lemma refresh_stores_every_record_wakanda :
  exists db',
    services.process_and_cache_countries
      (world (services.Response 200 sample_rates)
             (services.Response 200 [nameless; wakanda]) true)
      (session NullsLowest three_rows)
    = (Return {| services.status := "success"; services.refreshed_at := 100 |}, db')
    /\ crud.get_country_by_name db' "WAKANDA" <> None.
Proof.
  eexists. split; [reflexivity|].
  refine (proj2 (refresh_stores_every_record
                   (world (services.Response 200 sample_rates)
                          (services.Response 200 [nameless; wakanda]) true)
                   (session NullsLowest three_rows) _ [nameless; wakanda] _
                   three_rows_consistent (deployed_agrees NullsLowest _) eq_refl eq_refl)
            wakanda "Wakanda" "WAKANDA" _ eq_refl eq_refl eq_refl).
  right. left. reflexivity.
Defined.

(** X25. The summary drawn once the status update is committed counts every
    row of the table, lists five rows of it, or all when there are fewer,
    and shows the time just written to the status row, never the
    placeholder for a missing time. *)
Theorem summary_after_commit (w : services.World) (db : AsyncSession) (t : Time) :
  services.image_saved w = true ->
  exists s,
    services.generate_summary_image w (commit (crud.update_app_status db t)) = Return s
    /\ services.total s = crud.get_countries_count db
    /\ length (services.top_5 s) = Nat.min 5 (services.total s)
    /\ (forall r, In r (services.top_5 s) -> In r (countries (pending db)))
    /\ services.timestamp s = Some t.
Proof.
  intros Hi. unfold services.generate_summary_image. rewrite Hi.
  eexists. split; [reflexivity|]. cbn [services.total services.top_5 services.timestamp].
  assert (Hrows : countries (pending (commit (crud.update_app_status db t)))
                  = countries (pending db)) by reflexivity.
  pose proof (top_listing_perm (commit (crud.update_app_status db t))) as Hperm.
  rewrite Hrows in Hperm.
  unfold crud.get_top_gdp_countries, crud.get_countries_count. rewrite Hrows.
  split; [reflexivity|]. split; [|split].
  - rewrite length_firstn. f_equal. apply Permutation_length, Hperm.
  - intros r Hr. apply In_firstn in Hr.
    eapply Permutation_in; [apply Hperm | exact Hr].
  - unfold crud.update_app_status, crud.get_app_status. simpl.
    now destruct (app_status (pending db)).
Qed.

Lemma summary_after_commit_three_rows :
  exists s,
    services.generate_summary_image
      (world (services.Response 200 sample_rates) (services.Response 200 []) true)
      (commit (crud.update_app_status (session NullsLowest three_rows) 100)) = Return s
    /\ services.total s = 3%nat
    /\ length (services.top_5 s) = 3%nat
    /\ services.timestamp s = Some 100.
Proof.
  destruct (summary_after_commit
              (world (services.Response 200 sample_rates) (services.Response 200 []) true)
              (session NullsLowest three_rows) 100 eq_refl)
    as (s & Hs & Htotal & Htop & _ & Htime).
  exists s. rewrite Htop, Htotal. auto.
Defined.
